(** * SmartAttend server: session lifecycle, attendance recording, analytics

    A shallow embedding of the Express server of the repository (the file
    with the route handlers) and a verification of its specification.

    Modelling conventions.
    - The module-level arrays [sessions] and [students] are explicit
      arguments; a handler returns the new [sessions] array, the HTTP
      response, and the list of events passed to [io.emit].
    - A [session] object found by [Array.prototype.find] is a reference into
      the array: a mutation of it is an update of the array at the index
      where it was found.
    - [Date.now()], [new Date()] and [Math.random().toString(36)] are inputs
      of the handlers (millisecond clock readings and the printed random
      number).
    - Handlers behind [authenticateToken] take the verified token payload
      [req.user] as an argument.
    - Identities, codes and names are strings; an optional body field is an
      [option string] ([None] for a missing field).
    - Numbers of the roster are integers.  The quotient of two integers is an
      exact rational, or NaN / an infinity when the divisor is zero. *)

From Stdlib Require Import ZArith Ascii QArith Qround Qabs.
From stdpp Require Import base decidable option list strings pretty.

Local Open Scope string_scope.
Local Open Scope list_scope.
Local Open Scope Z_scope.

(** ** Data model *)

(** The verified token payload [req.user]. *)
Record User := {
  user_id : string;
  user_role : string;
  user_name : string;
  user_department : option string;
  user_rollNo : option string
}.

(** [{ studentId, studentName, timestamp, method }] *)
Record AttendanceRecord := {
  studentId : string;
  studentName : string;
  timestamp : Z;
  method : string
}.

(** A session object of the [sessions] array. [endTime] is absent until the
    session is ended. *)
Record Session := {
  session_id : Z;
  sessionCode : string;
  professorId : string;
  professorName : string;
  className : string;
  qrCode : string;
  isActive : bool;
  startTime : Z;
  endTime : option Z;
  attendees : list AttendanceRecord
}.

(** An entry of the [students] array. *)
Record Student := {
  student_id : string;
  student_name : string;
  department : string;
  attendance : Z;
  marks : Z
}.

(** The payload of [io.emit('attendanceUpdate', ...)]. *)
Record AttendanceUpdate := {
  ev_sessionCode : string;
  ev_studentId : string;
  ev_studentName : string;
  ev_totalAttendees : nat;
  ev_timestamp : Z
}.

(** ** JavaScript numbers produced by the analytics *)

Inductive JsNumber :=
| JsNum (q : Q)
| JsNaN
| JsInfinity (negative : bool).

(** [a / b] on integers [a], [b]. *)
Definition js_div (a b : Z) : JsNumber :=
  if b =? 0 then
    if a =? 0 then JsNaN else JsInfinity (a <? 0)
  else JsNum (inject_Z a / inject_Z b)%Q.

(** [Math.round]: the integer nearest to the argument, ties towards
    +Infinity; NaN and the infinities are returned as they are. *)
Definition Math_round (x : JsNumber) : JsNumber :=
  match x with
  | JsNum q => JsNum (inject_Z (Qfloor (q + (1 # 2))))
  | _ => x
  end.

(** [x >= n] for an integer literal [n]; a comparison with NaN is false. *)
Definition js_ge (x : JsNumber) (n : Z) : bool :=
  match x with
  | JsNum q => Qle_bool (inject_Z n) q
  | JsNaN => false
  | JsInfinity negative => negb negative
  end.

(** ** Responses *)

Record DeptAnalytics := {
  da_department : string;
  da_avgAttendance : JsNumber;
  da_atRiskStudents : nat;
  da_totalStudents : nat;
  da_remark : string
}.

Record AtRiskStudent := {
  ar_id : string;
  ar_name : string;
  ar_attendance : Z;
  ar_status : string
}.

Record ClassStats := {
  cs_totalStudents : nat;
  cs_avgAttendance : JsNumber;
  cs_avgMarks : JsNumber;
  cs_atRiskCount : nat
}.

(** The JSON bodies the modelled handlers send. *)
Inductive Body :=
| BError (error : string)
    (* { error } *)
| BSession (session : Session) (qr : string)
    (* { success: true, session, qrCode } *)
| BMessage (message : string)
    (* { success: true, message } *)
| BMarked (message : string) (name : string)
    (* { success: true, message, studentName } *)
| BPrincipal (analytics : list DeptAnalytics)
    (* { analytics } *)
| BHod (dept : option string) (totalStudents : nat) (avgAttendance : JsNumber)
       (atRiskStudents : list AtRiskStudent)
    (* { department, totalStudents, avgAttendance, atRiskStudents } *)
| BFaculty (students : list Student) (classStats : ClassStats).
    (* { students, classStats } *)

(** [res.status(n).json(b)]; [res.json(b)] alone sends status 200. *)
Record Response := { status : Z; body : Body }.

Definition json (b : Body) : Response := {| status := 200; body := b |}.

(** What a handler leaves behind: the [sessions] array, the response and the
    emitted events, oldest first. *)
Record Outcome := {
  out_sessions : list Session;
  out_response : Response;
  out_events : list AttendanceUpdate
}.

Definition reply (sessions : list Session) (r : Response) : Outcome :=
  {| out_sessions := sessions; out_response := r; out_events := [] |}.

(** [a || b] on an optional string: the empty string is falsy like a missing
    one. *)
Definition js_or (a : option string) (b : string) : string :=
  match a with
  | Some s => if bool_decide (s = "") then b else s
  | None => b
  end.

(** ** Session lifecycle *)

(** [generateSessionCode]: [`ATT-${Date.now()}-${Math.random().toString(36).substr(2, 8)}`].
    [random36] is the printed random number, e.g. ["0.4fzyo82mvyr"]. *)
Definition generateSessionCode (dateNow : Z) (random36 : string) : string :=
  "ATT-" +:+ pretty dateNow +:+ "-" +:+ String.substring 2 8 random36.

Definition set_attendees (s : Session) (l : list AttendanceRecord) : Session :=
  {| session_id := session_id s; sessionCode := sessionCode s;
     professorId := professorId s; professorName := professorName s;
     className := className s; qrCode := qrCode s; isActive := isActive s;
     startTime := startTime s; endTime := endTime s; attendees := l |}.

(** [session.isActive = false; session.endTime = new Date()] *)
Definition set_ended (s : Session) (now : Z) : Session :=
  {| session_id := session_id s; sessionCode := sessionCode s;
     professorId := professorId s; professorName := professorName s;
     className := className s; qrCode := qrCode s; isActive := false;
     startTime := startTime s; endTime := Some now; attendees := attendees s |}.

Section Handlers.

(** [QRCode.toDataURL]: the data URL of the image, or the message of the
    error it rejects with. *)
Variable toDataURL : string → string + string.

(** POST /api/sessions/start *)
Definition sessions_start (sessions : list Session) (user : User)
    (reqClassName : option string) (dateNow : Z) (random36 : string)
    (startNow : Z) : Outcome :=
  if bool_decide (user_role user ≠ "faculty") then
    reply sessions {| status := 403; body := BError "Only faculty can start sessions" |}
  else
    let code := generateSessionCode dateNow random36 in
    match toDataURL code with
    | inl message => reply sessions {| status := 500; body := BError message |}
    | inr qr =>
        let session :=
          {| session_id := Z.of_nat (length sessions) + 1;
             sessionCode := code;
             professorId := user_id user;
             professorName := user_name user;
             className := js_or reqClassName "Computer Science 101";
             qrCode := qr;
             isActive := true;
             startTime := startNow;
             endTime := None;
             attendees := [] |} in
        reply (sessions ++ [session]) (json (BSession session qr))
    end.

(** POST /api/attendance/mark *)
Definition attendance_mark (sessions : list Session)
    (code sid : string) (name : option string) (now : Z) : Outcome :=
  match list_find (λ s, sessionCode s = code ∧ isActive s = true) sessions with
  | None =>
      reply sessions {| status := 404; body := BError "Session not found or expired" |}
  | Some (i, session) =>
      if existsb (λ att, bool_decide (studentId att = sid)) (attendees session) then
        reply sessions (json (BMessage "Attendance already marked"))
      else
        let attendanceRecord :=
          {| studentId := sid;
             studentName := js_or name ("Student " +:+ sid);
             timestamp := now;
             method := "qr" |} in
        let session' := set_attendees session (attendees session ++ [attendanceRecord]) in
        {| out_sessions := <[i := session']> sessions;
           out_response :=
             json (BMarked "Attendance marked successfully" (studentName attendanceRecord));
           out_events :=
             [ {| ev_sessionCode := code;
                  ev_studentId := sid;
                  ev_studentName := studentName attendanceRecord;
                  ev_totalAttendees := length (attendees session');
                  ev_timestamp := timestamp attendanceRecord |} ] |}
  end.

(** POST /api/sessions/:sessionId/end.  [sessionId] is the value of
    [parseInt(req.params.sessionId)], [None] when it is NaN. *)
Definition sessions_end (sessions : list Session) (user : User)
    (sessionId : option Z) (now : Z) : Outcome :=
  match sessionId ≫= λ n, list_find (λ s, session_id s = n) sessions with
  | None => reply sessions {| status := 404; body := BError "Session not found" |}
  | Some (i, session) =>
      if bool_decide (professorId session ≠ user_id user) then
        reply sessions {| status := 403; body := BError "Access denied" |}
      else
        reply (<[i := set_ended session now]> sessions)
              (json (BMessage "Session ended successfully"))
  end.

End Handlers.

(** ** The server as a process *)

(** The requests that touch the [sessions] array, with the clock readings and
    the random number each one consumes. *)
Inductive Request :=
| ReqStart (user : User) (reqClassName : option string)
           (dateNow : Z) (random36 : string) (startNow : Z)
| ReqMark (code sid : string) (name : option string) (now : Z)
| ReqEnd (user : User) (sessionId : option Z) (now : Z).

Section Process.

Variable toDataURL : string → string + string.

Definition handle (sessions : list Session) (r : Request) : Outcome :=
  match r with
  | ReqStart user reqClassName dateNow random36 startNow =>
      sessions_start toDataURL sessions user reqClassName dateNow random36 startNow
  | ReqMark code sid name now => attendance_mark sessions code sid name now
  | ReqEnd user sessionId now => sessions_end sessions user sessionId now
  end.

(** The [sessions] array after serving [rs] in order. *)
Fixpoint run (sessions : list Session) (rs : list Request) : list Session :=
  match rs with
  | [] => sessions
  | r :: rs' => run (out_sessions (handle sessions r)) rs'
  end.

(** The responses to [rs], in order. *)
Fixpoint responses (sessions : list Session) (rs : list Request) : list Response :=
  match rs with
  | [] => []
  | r :: rs' =>
      out_response (handle sessions r) :: responses (out_sessions (handle sessions r)) rs'
  end.

(** Everything emitted while serving [rs], oldest first. *)
Fixpoint broadcasts (sessions : list Session) (rs : list Request)
    : list AttendanceUpdate :=
  match rs with
  | [] => []
  | r :: rs' =>
      out_events (handle sessions r) ++ broadcasts (out_sessions (handle sessions r)) rs'
  end.

End Process.

(** ** Analytics over the roster *)

Definition students : list Student :=
  [ {| student_id := "CS001"; student_name := "Alice Johnson"; department := "CSE"; attendance := 94; marks := 91 |};
    {| student_id := "CS002"; student_name := "Bob Smith"; department := "CSE"; attendance := 74; marks := 72 |};
    {| student_id := "CS003"; student_name := "Carol Davis"; department := "CSE"; attendance := 80; marks := 78 |};
    {| student_id := "CS004"; student_name := "David Wilson"; department := "CSE"; attendance := 69; marks := 65 |};
    {| student_id := "EC001"; student_name := "Eva Brown"; department := "ECE"; attendance := 88; marks := 85 |};
    {| student_id := "EC002"; student_name := "Frank Miller"; department := "ECE"; attendance := 92; marks := 88 |};
    {| student_id := "EE001"; student_name := "Grace Lee"; department := "EEE"; attendance := 85; marks := 82 |};
    {| student_id := "IT001"; student_name := "Henry Taylor"; department := "IT"; attendance := 91; marks := 89 |};
    {| student_id := "ME001"; student_name := "Ivy Anderson"; department := "MECH"; attendance := 78; marks := 75 |} ].

Definition departments : list string := ["CSE"; "ECE"; "EEE"; "IT"; "MECH"].

(** [l.reduce((sum, s) => sum + f(s), 0)] *)
Definition reduce_sum (f : Student → Z) (l : list Student) : Z :=
  foldl (λ sum s, sum + f s) 0 l.

(** [l.filter(s => s.attendance < 75)] *)
Definition below_75 (l : list Student) : list Student :=
  filter (λ s, attendance s < 75) l.

(** The object the principal's handler builds for one department. *)
Definition dept_analytics (roster : list Student) (dept : string) : DeptAnalytics :=
  let deptStudents := filter (λ s, department s = dept) roster in
  let avgAttendance :=
    if bool_decide (0 < length deptStudents)%nat then
      Math_round (js_div (reduce_sum attendance deptStudents)
                         (Z.of_nat (length deptStudents)))
    else JsNum 0 in
  let atRisk := length (below_75 deptStudents) in
  {| da_department := dept;
     da_avgAttendance := avgAttendance;
     da_atRiskStudents := atRisk;
     da_totalStudents := length deptStudents;
     da_remark :=
       if js_ge avgAttendance 85 then "Excellent"
       else if js_ge avgAttendance 75 then "Good"
       else "Needs Improvement" |}.

Definition access_denied : Response :=
  {| status := 403; body := BError "Access denied" |}.

(** GET /api/analytics/principal *)
Definition analytics_principal (roster : list Student) (user : User) : Response :=
  if bool_decide (user_role user ≠ "principal") then access_denied
  else json (BPrincipal (dept_analytics roster <$> departments)).

Definition at_risk_entry (s : Student) : AtRiskStudent :=
  {| ar_id := student_id s;
     ar_name := student_name s;
     ar_attendance := attendance s;
     ar_status :=
       if attendance s <? 60 then "Critical"
       else if attendance s <? 70 then "Warning"
       else "Needs Counseling" |}.

(** [students.filter(s => s.department === req.user.department)]: a user
    without a department matches no entry. *)
Definition of_department (roster : list Student) (user : User) : list Student :=
  filter (λ s, Some (department s) = user_department user) roster.

(** GET /api/analytics/hod *)
Definition analytics_hod (roster : list Student) (user : User) : Response :=
  if bool_decide (user_role user ≠ "hod") then access_denied
  else
    let deptStudents := of_department roster user in
    let atRiskStudents := below_75 deptStudents in
    json (BHod (user_department user)
               (length deptStudents)
               (Math_round (js_div (reduce_sum attendance deptStudents)
                                   (Z.of_nat (length deptStudents))))
               (at_risk_entry <$> atRiskStudents)).

(** GET /api/analytics/faculty *)
Definition analytics_faculty (roster : list Student) (user : User) : Response :=
  if bool_decide (user_role user ≠ "faculty") then access_denied
  else
    let facultyStudents := of_department roster user in
    json (BFaculty facultyStudents
            {| cs_totalStudents := length facultyStudents;
               cs_avgAttendance :=
                 Math_round (js_div (reduce_sum attendance facultyStudents)
                                    (Z.of_nat (length facultyStudents)));
               cs_avgMarks :=
                 Math_round (js_div (reduce_sum marks facultyStudents)
                                    (Z.of_nat (length facultyStudents)));
               cs_atRiskCount := length (below_75 facultyStudents) |}).

(** ** Sample values used by the examples *)

Definition sample_codec (code : string) : string + string :=
  inr ("data:image/png;base64," +:+ code).

Definition dr_faculty : User :=
  {| user_id := "3"; user_role := "faculty"; user_name := "Dr. Faculty";
     user_department := Some "CSE"; user_rollNo := None |}.

Definition alice : User :=
  {| user_id := "4"; user_role := "student"; user_name := "Alice Johnson";
     user_department := None; user_rollNo := Some "CS001" |}.

Definition prof_hod : User :=
  {| user_id := "2"; user_role := "hod"; user_name := "Prof. HOD";
     user_department := Some "CSE"; user_rollNo := None |}.

Definition dr_principal : User :=
  {| user_id := "1"; user_role := "principal"; user_name := "Dr. Principal";
     user_department := None; user_rollNo := None |}.

(** ** Properties of the registry *)

(** No participant id occurs twice among the attendees of [s]. *)
Definition one_record_each (s : Session) : Prop :=
  NoDup (studentId <$> attendees s).

(** Session ids count the array positions from 1, as [sessions.length + 1]
    assigns them. *)
Definition ids_sequential (sessions : list Session) : Prop :=
  ∀ i s, sessions !! i = Some s → session_id s = Z.of_nat i + 1.

(** No character of [s] is a dash. *)
Fixpoint dash_free (s : string) : Prop :=
  match s with
  | EmptyString => True
  | String c s' => c ≠ "-"%char ∧ dash_free s'
  end.

(** ** Authentication and the routes behind it *)

(** The six fields login signs into the token; [jwt.verify] hands them back
    as [req.user]. *)
Record Claims := {
  claim_username : string;
  claim_user : User
}.

(** An entry of the [users] array; [account_password] is the bcrypt hash. *)
Record Account := {
  account_id : string;
  account_username : string;
  account_password : string;
  account_role : string;
  account_name : string;
  account_department : option string;
  account_rollNo : option string
}.

(** [{ id: user.id, username: user.username, role: user.role, name: user.name,
       department: user.department, rollNo: user.rollNo }] *)
Definition claims_of (a : Account) : Claims :=
  {| claim_username := account_username a;
     claim_user :=
       {| user_id := account_id a; user_role := account_role a;
          user_name := account_name a; user_department := account_department a;
          user_rollNo := account_rollNo a |} |}.

(** The answer of a handler that mutates nothing: [res.status(n).json({ error })]
    or [res.json(payload)]. *)
Inductive Reply (A : Type) : Type :=
| Refused (code : Z) (error : string)
| Sent (payload : A).

Arguments Refused {A} code error.
Arguments Sent {A} payload.

(** [s.split(' ')]: the pieces of [s] between its spaces, at least one. *)
Fixpoint split_spaces (s : string) : list string :=
  match s with
  | EmptyString => [EmptyString]
  | String c s' =>
      if bool_decide (c = " "%char) then EmptyString :: split_spaces s'
      else
        match split_spaces s' with
        | piece :: pieces => String c piece :: pieces
        | [] => [String c EmptyString]
        end
  end.

(** No character of [s] is a space. *)
Fixpoint space_free (s : string) : Prop :=
  match s with
  | EmptyString => True
  | String c s' => c ≠ " "%char ∧ space_free s'
  end.

Section Auth.

(** [jwt.verify(token, JWT_SECRET, callback)]: the decoded payload, or [None]
    when the callback gets an error. *)
Variable jwt_verify : string → option Claims.

(** [authenticateToken]: the answer sent instead of calling [next()], or the
    payload stored in [req.user].  [authorization] is
    [req.headers['authorization']]. *)
Definition authenticateToken (authorization : option string) : Reply Claims :=
  let token :=
    match authorization with
    | None => None
    | Some authHeader =>
        if bool_decide (authHeader = "") then Some ""
        else split_spaces authHeader !! 1%nat
    end in
  match token with
  | None => Refused 401 "Access token required"
  | Some t =>
      if bool_decide (t = "") then Refused 401 "Access token required"
      else
        match jwt_verify t with
        | None => Refused 403 "Invalid token"
        | Some user => Sent user
        end
  end.

(** [app.post(path, authenticateToken, handler)]: the handler runs on
    [req.user] only when the middleware calls [next()]. *)
Definition guarded {A} (refuse : Response → A) (handler : User → A)
    (authorization : option string) : A :=
  match authenticateToken authorization with
  | Refused code error => refuse {| status := code; body := BError error |}
  | Sent claims => handler (claim_user claims)
  end.

Variable toDataURL : string → string + string.

(** The two authenticated routes that write to [sessions]. *)
Definition route_sessions_start (sessions : list Session)
    (authorization : option string) (reqClassName : option string)
    (dateNow : Z) (random36 : string) (startNow : Z) : Outcome :=
  guarded (reply sessions)
          (λ user, sessions_start toDataURL sessions user reqClassName dateNow
                                  random36 startNow)
          authorization.

Definition route_sessions_end (sessions : list Session)
    (authorization : option string) (sessionId : option Z) (now : Z) : Outcome :=
  guarded (reply sessions)
          (λ user, sessions_end sessions user sessionId now)
          authorization.

End Auth.

Section Login.

(** [bcrypt.compare(password, hash)]: the verdict, or the message of the
    error it rejects with. *)
Variable bcrypt_compare : string → string → string + bool.

(** [jwt.sign(payload, JWT_SECRET, { expiresIn: '24h' })] *)
Variable jwt_sign : Claims → string.

(** POST /api/auth/login: on success the token and the user summary. *)
Definition auth_login (users : list Account) (username password role : string)
    : Reply (string * Claims) :=
  match list_find (λ u, account_username u = username ∧ account_role u = role) users with
  | None => Refused 401 "Invalid credentials"
  | Some (_, user) =>
      match bcrypt_compare password (account_password user) with
      | inl message => Refused 500 message
      | inr false => Refused 401 "Invalid credentials"
      | inr true => Sent (jwt_sign (claims_of user), claims_of user)
      end
  end.

End Login.

(** [demoUsers] of [initializeDemoData], for the hash of 'password123'. *)
Definition demoUsers (hashedPassword : string) : list Account :=
  [ {| account_id := "1"; account_username := "principal"; account_password := hashedPassword;
       account_role := "principal"; account_name := "Dr. Principal";
       account_department := None; account_rollNo := None |};
    {| account_id := "2"; account_username := "hod"; account_password := hashedPassword;
       account_role := "hod"; account_name := "Prof. HOD";
       account_department := Some "CSE"; account_rollNo := None |};
    {| account_id := "3"; account_username := "faculty"; account_password := hashedPassword;
       account_role := "faculty"; account_name := "Dr. Faculty";
       account_department := Some "CSE"; account_rollNo := None |};
    {| account_id := "4"; account_username := "student"; account_password := hashedPassword;
       account_role := "student"; account_name := "Alice Johnson";
       account_department := None; account_rollNo := Some "CS001" |};
    {| account_id := "5"; account_username := "student2"; account_password := hashedPassword;
       account_role := "student"; account_name := "Bob Smith";
       account_department := None; account_rollNo := Some "CS002" |} ].

(** [initializeDemoData]: [hashed] is the outcome of
    [bcrypt.hash('password123', 10)], an error being logged and swallowed. *)
Definition initializeDemoData (users : list Account) (hashed : string + string)
    : list Account :=
  if bool_decide (length users = 0%nat) then
    match hashed with
    | inl _ => users
    | inr hashedPassword => demoUsers hashedPassword
    end
  else users.

(** ** Read-only session and student routes *)

(** GET /api/sessions/active *)
Definition sessions_active (sessions : list Session) (user : User)
    : Reply (list Session) :=
  if bool_decide (user_role user ≠ "faculty") then Refused 403 "Access denied"
  else Sent (filter (λ s, professorId s = user_id user ∧ isActive s = true) sessions).

Record StudentView := {
  sv_student : Student;
  sv_attendanceTrend : list Z;
  sv_marksTrend : list Z;
  sv_subjectAttendance : list (string * Z)
}.

(** GET /api/analytics/student *)
Definition analytics_student (roster : list Student) (user : User)
    : Reply StudentView :=
  if bool_decide (user_role user ≠ "student") then Refused 403 "Access denied"
  else
    match list_find (λ s, Some (student_id s) = user_rollNo user) roster with
    | None => Refused 404 "Student not found"
    | Some (_, student) =>
        Sent {| sv_student := student;
                sv_attendanceTrend := [88; 90; 85; 87; attendance student];
                sv_marksTrend := [82; 88; 85];
                sv_subjectAttendance :=
                  [("Cyber Security", 90); ("IoT", 85); ("Cloud Computing", 88);
                   ("Python", 92); ("DSA", 87)] |}
    end.

(** ** More sample values *)

(** A stand-in for the token library: the token of a payload is "jwt." and
    the user id, and only the tokens of the demo accounts verify. *)
Definition sample_sign (c : Claims) : string := "jwt." +:+ user_id (claim_user c).

Definition sample_verify (token : string) : option Claims :=
  snd <$> list_find (λ c, sample_sign c = token) (claims_of <$> demoUsers "$2a$10$hash").

(** A stand-in for bcrypt: the hash of the demo accounts matches
    'password123' alone. *)
Definition sample_compare (password hash : string) : string + bool :=
  inr (bool_decide (password = "password123" ∧ hash = "$2a$10$hash")).

(** Total number of attendance records in the registry. *)
Definition total_records (sessions : list Session) : nat :=
  foldr (λ s n, (length (attendees s) + n)%nat) 0%nat sessions.

(** The session a response carries, if it is the answer to a start. *)
Definition reply_session (r : Response) : option Session :=
  match body r with
  | BSession session _ => Some session
  | _ => None
  end.

(** What identifies a session to its users. *)
Definition session_key (s : Session) : Z * string * string :=
  (session_id s, sessionCode s, professorId s).

(** * Verification *)

(** ** The lookups of the handlers *)

(** [session.attendees.some(att => att.studentId === studentId)] *)
Lemma some_studentId (sid : string) (l : list AttendanceRecord) :
  existsb (λ att, bool_decide (studentId att = sid)) l = true ↔
  sid ∈ studentId <$> l.
Proof.
  induction l as [|att l IH]; simpl.
  - split; [discriminate | by intros ?%elem_of_nil].
  - rewrite orb_true_iff, IH, bool_decide_eq_true, elem_of_cons.
    split; (intros [H|H]; [left | right]); done.
Qed.

Lemma some_studentId_false (sid : string) (l : list AttendanceRecord) :
  existsb (λ att, bool_decide (studentId att = sid)) l = false ↔
  sid ∉ studentId <$> l.
Proof. rewrite <- some_studentId. by destruct (existsb _ l). Qed.

(** The three ways through the mark handler. *)
Lemma mark_not_found sessions code sid name now :
  list_find (λ s, sessionCode s = code ∧ isActive s = true) sessions = None →
  attendance_mark sessions code sid name now =
  reply sessions {| status := 404; body := BError "Session not found or expired" |}.
Proof. intros H. unfold attendance_mark. by rewrite H. Qed.

Lemma mark_already sessions code sid name now i s :
  list_find (λ s, sessionCode s = code ∧ isActive s = true) sessions = Some (i, s) →
  sid ∈ studentId <$> attendees s →
  attendance_mark sessions code sid name now =
  reply sessions (json (BMessage "Attendance already marked")).
Proof.
  intros H Hin. unfold attendance_mark. rewrite H.
  apply some_studentId in Hin. by rewrite Hin.
Qed.

Lemma mark_fresh sessions code sid name now i s :
  list_find (λ s, sessionCode s = code ∧ isActive s = true) sessions = Some (i, s) →
  sid ∉ studentId <$> attendees s →
  let record := {| studentId := sid; studentName := js_or name ("Student " +:+ sid);
                   timestamp := now; method := "qr" |} in
  attendance_mark sessions code sid name now =
  {| out_sessions := <[i := set_attendees s (attendees s ++ [record])]> sessions;
     out_response := json (BMarked "Attendance marked successfully" (studentName record));
     out_events := [ {| ev_sessionCode := code; ev_studentId := sid;
                        ev_studentName := studentName record;
                        ev_totalAttendees := S (length (attendees s));
                        ev_timestamp := now |} ] |}.
Proof.
  intros H Hin. unfold attendance_mark. rewrite H.
  apply some_studentId_false in Hin. rewrite Hin. simpl.
  by rewrite length_app, Nat.add_1_r.
Qed.

(** Appending a record to the session the lookup found does not change what
    the lookup finds. *)
Lemma find_after_append sessions code i s l :
  list_find (λ s, sessionCode s = code ∧ isActive s = true) sessions = Some (i, s) →
  list_find (λ s, sessionCode s = code ∧ isActive s = true)
            (<[i := set_attendees s l]> sessions) = Some (i, set_attendees s l).
Proof.
  intros (Hi & HP & Hleast)%list_find_Some.
  apply list_find_insert_Some. right; left.
  split; [done|]. split; [done|]. split; [by eapply lookup_lt_Some|].
  split; [exact HP | done].
Qed.

(** A successful mark was served by an open session with that code. *)
Lemma mark_ok_find sessions code sid name now :
  status (out_response (attendance_mark sessions code sid name now)) = 200 →
  ∃ i s, list_find (λ s, sessionCode s = code ∧ isActive s = true) sessions = Some (i, s).
Proof.
  unfold attendance_mark.
  destruct (list_find _ sessions) as [[i s]|]; [eauto | discriminate].
Qed.

(** ** One record per participant *)

Section Invariants.

Variable toDataURL : string → string + string.

Lemma handle_one_record_each sessions r :
  Forall one_record_each sessions →
  Forall one_record_each (out_sessions (handle toDataURL sessions r)).
Proof.
  intros Hall. destruct r as [user cls dateNow rnd startNow|code sid name now|user n now]; simpl.
  - unfold sessions_start. case_bool_decide; [done|].
    destruct (toDataURL _) as [err|qr]; [done|]. simpl.
    apply Forall_app; split; [done|].
    apply Forall_singleton. unfold one_record_each. simpl. constructor.
  - destruct (list_find (λ s, sessionCode s = code ∧ isActive s = true) sessions)
      as [[i s]|] eqn:Hfind.
    + destruct (decide (sid ∈ studentId <$> attendees s)) as [Hin|Hin].
      * by erewrite mark_already.
      * erewrite mark_fresh by done. simpl.
        apply Forall_insert; [done|].
        apply list_find_Some in Hfind as (Hi & _ & _).
        unfold one_record_each. simpl. rewrite fmap_app. simpl.
        apply NoDup_app. split_and!.
        -- by eapply (Forall_lookup_1 one_record_each).
        -- by intros x Hx ->%list_elem_of_singleton.
        -- apply NoDup_singleton.
    + by rewrite mark_not_found.
  - unfold sessions_end.
    destruct (n ≫= _) as [[i s]|] eqn:Hfind; [|done].
    case_bool_decide; [done|]. simpl.
    apply Forall_insert; [done|].
    destruct n as [n|]; [|done]. simpl in Hfind.
    apply list_find_Some in Hfind as (Hi & _ & _).
    change (one_record_each s).
    by eapply (Forall_lookup_1 one_record_each).
Qed.

Lemma run_one_record_each rs : ∀ sessions,
  Forall one_record_each sessions →
  Forall one_record_each (run toDataURL sessions rs).
Proof.
  induction rs as [|r rs IH]; intros sessions Hall; simpl; [done|].
  by apply IH, handle_one_record_each.
Qed.

End Invariants.

(** C1. Marking a participant who is already on the list of the session the
    code resolves to appends nothing, answers success with the message
    'Attendance already marked' and emits nothing; this is what a second mark
    with the same code and participant id meets, whatever name and time it
    carries; and in every state the server reaches from the empty registry no
    session lists a participant id twice. *)
Theorem mark_twice_one_record :
  (∀ sessions code sid name now i s,
     list_find (λ s, sessionCode s = code ∧ isActive s = true) sessions = Some (i, s) →
     sid ∈ studentId <$> attendees s →
     attendance_mark sessions code sid name now =
     {| out_sessions := sessions;
        out_response := {| status := 200; body := BMessage "Attendance already marked" |};
        out_events := [] |}) ∧
  (∀ sessions code sid name1 now1 name2 now2,
     let first := attendance_mark sessions code sid name1 now1 in
     let second := attendance_mark (out_sessions first) code sid name2 now2 in
     status (out_response first) = 200 →
     out_sessions second = out_sessions first ∧
     out_response second =
       {| status := 200; body := BMessage "Attendance already marked" |} ∧
     out_events second = []) ∧
  (∀ toDataURL rs s,
     s ∈ run toDataURL [] rs → NoDup (studentId <$> attendees s)).
Proof.
  split_and!.
  - intros. by erewrite mark_already.
  - intros sessions code sid name1 now1 name2 now2 first second Hok.
    destruct (mark_ok_find _ _ _ _ _ Hok) as (i & s & Hfind).
    subst second first.
    destruct (decide (sid ∈ studentId <$> attendees s)) as [Hin|Hin].
    + rewrite (mark_already _ _ _ name1 now1 _ _ Hfind Hin). simpl.
      by rewrite (mark_already _ _ _ name2 now2 _ _ Hfind Hin).
    + rewrite (mark_fresh _ _ _ name1 now1 _ _ Hfind Hin). simpl.
      erewrite mark_already; [done | by apply find_after_append |].
      simpl. rewrite fmap_app. apply elem_of_app. right. by left.
  - intros toDataURL rs s Hs.
    pose proof (run_one_record_each toDataURL rs [] (Forall_nil_2 _)) as Hall.
    by eapply (proj1 (Forall_forall _ _) Hall).
Qed.

Lemma mark_twice_one_record_witness :
  let rs := [ReqStart dr_faculty None 1700000000000 "0.4fzyo82mvyr" 1700000000005] in
  let sessions := run sample_codec [] rs in
  let first :=
    attendance_mark sessions "ATT-1700000000000-4fzyo82m" "CS001" None 1700000001000 in
  let second :=
    attendance_mark (out_sessions first) "ATT-1700000000000-4fzyo82m" "CS001"
                    (Some "Alice Johnson") 1700000002000 in
  (status (out_response first) = 200 ∧
   out_sessions second = out_sessions first ∧
   out_response second =
     {| status := 200; body := BMessage "Attendance already marked" |} ∧
   out_events second = []) ∧
  second =
    {| out_sessions := out_sessions first;
       out_response := {| status := 200; body := BMessage "Attendance already marked" |};
       out_events := [] |} ∧
  Forall (λ s, NoDup (studentId <$> attendees s)) (out_sessions second).
Proof.
  intros rs sessions first second. split; [|split].
  - split; [reflexivity|].
    apply (proj1 (proj2 mark_twice_one_record)). reflexivity.
  - subst second.
    eapply (proj1 mark_twice_one_record (out_sessions first)
              "ATT-1700000000000-4fzyo82m" "CS001"); [reflexivity|].
    by left.
  - apply Forall_forall. intros s Hs.
    apply (proj2 (proj2 mark_twice_one_record) sample_codec
             (rs ++ [ReqMark "ATT-1700000000000-4fzyo82m" "CS001" None 1700000001000;
                     ReqMark "ATT-1700000000000-4fzyo82m" "CS001"
                             (Some "Alice Johnson") 1700000002000])).
    exact Hs.
Defined.

(** ** What a mark appends *)

(** The mark handler either leaves the array as it is or appends one record
    to one session. *)
Lemma mark_cases sessions code sid name now :
  let o := attendance_mark sessions code sid name now in
  (out_sessions o = sessions ∧ out_events o = [] ∧
   (out_response o = {| status := 404; body := BError "Session not found or expired" |} ∨
    out_response o = json (BMessage "Attendance already marked"))) ∨
  (∃ i s,
     list_find (λ s, sessionCode s = code ∧ isActive s = true) sessions = Some (i, s) ∧
     (sid ∉ studentId <$> attendees s) ∧
     let record := {| studentId := sid; studentName := js_or name ("Student " +:+ sid);
                      timestamp := now; method := "qr" |} in
     o = {| out_sessions := <[i := set_attendees s (attendees s ++ [record])]> sessions;
            out_response :=
              json (BMarked "Attendance marked successfully" (studentName record));
            out_events := [ {| ev_sessionCode := code; ev_studentId := sid;
                               ev_studentName := studentName record;
                               ev_totalAttendees := S (length (attendees s));
                               ev_timestamp := now |} ] |}).
Proof.
  intros o. subst o.
  destruct (list_find (λ s, sessionCode s = code ∧ isActive s = true) sessions)
    as [[i s]|] eqn:Hfind.
  - destruct (decide (sid ∈ studentId <$> attendees s)) as [Hin|Hin].
    + left. erewrite mark_already by done. simpl. auto.
    + right. exists i, s. split_and!; [done..|]. by apply mark_fresh.
  - left. rewrite mark_not_found by done. simpl. auto.
Qed.

Section Frames.

Variable toDataURL : string → string + string.

(** No handler removes, reorders or rewrites a recorded attendee: every
    session keeps its place in the array and its list of attendees as a
    prefix of the new one. *)
Lemma handle_attendees_prefix sessions r j s :
  sessions !! j = Some s →
  ∃ s', out_sessions (handle toDataURL sessions r) !! j = Some s' ∧
        attendees s `prefix_of` attendees s'.
Proof.
  intros Hj.
  destruct r as [user cls dateNow rnd startNow|code sid name now|user n now]; simpl.
  - exists s. split; [|done]. unfold sessions_start.
    case_bool_decide; [done|]. destruct (toDataURL _) as [err|qr]; [done|]. simpl.
    by apply lookup_app_l_Some.
  - destruct (mark_cases sessions code sid name now) as [(-> & _)|(i & s0 & Hfind & _ & ->)].
    + by exists s.
    + simpl. apply list_find_Some in Hfind as (Hi & _ & _).
      destruct (decide (i = j)) as [->|Hne].
      * assert (s0 = s) as -> by congruence.
        eexists. split.
        -- apply list_lookup_insert_eq. by eapply lookup_lt_Some.
        -- simpl. by apply prefix_app_r.
      * exists s. by rewrite list_lookup_insert_ne.
  - unfold sessions_end.
    destruct (n ≫= _) as [[i s0]|] eqn:Hfind; [|by exists s].
    case_bool_decide; [by exists s|]. simpl.
    destruct n as [n|]; [|done]. simpl in Hfind.
    apply list_find_Some in Hfind as (Hi & _ & _).
    destruct (decide (i = j)) as [->|Hne].
    + assert (s0 = s) as -> by congruence.
      exists (set_ended s now). split; [|done].
      apply list_lookup_insert_eq. by eapply lookup_lt_Some.
    + exists s. by rewrite list_lookup_insert_ne.
Qed.

End Frames.

(** C2 (as amended). A mark either appends nothing, or it answers
    'Attendance marked successfully' and appends exactly one record at the
    end of the attendee list of one session carrying the code; that record
    has the participant id of the request, the time of the mark as its
    timestamp and the method tag "qr".  Under every request each session
    keeps its earlier attendees, in order, as a prefix of its list. *)
Theorem mark_appends_qr_record_last :
  (∀ sessions code sid name now,
     let o := attendance_mark sessions code sid name now in
     (out_sessions o = sessions ∧
      ∀ message shown, body (out_response o) ≠ BMarked message shown) ∨
     (∃ i s record,
        sessions !! i = Some s ∧ sessionCode s = code ∧
        out_sessions o = <[i := set_attendees s (attendees s ++ [record])]> sessions ∧
        out_response o =
          json (BMarked "Attendance marked successfully" (studentName record)) ∧
        studentId record = sid ∧ timestamp record = now ∧ method record = "qr")) ∧
  (∀ toDataURL sessions r j s,
     sessions !! j = Some s →
     ∃ s', out_sessions (handle toDataURL sessions r) !! j = Some s' ∧
           attendees s `prefix_of` attendees s').
Proof.
  split.
  - intros sessions code sid name now o.
    destruct (mark_cases sessions code sid name now)
      as [(Hs & _ & [Hr|Hr])|(i & s & Hfind & _ & Ho)]; fold o in Hs, Hr || fold o in Ho.
    + left. split; [done|]. intros ??. by rewrite Hr.
    + left. split; [done|]. intros ??. by rewrite Hr.
    + right. apply list_find_Some in Hfind as (Hi & [Hcode _] & _).
      eexists i, s, _. rewrite Ho. simpl. split_and!; done.
  - intros. by apply handle_attendees_prefix.
Qed.

Lemma mark_appends_qr_record_last_witness :
  let sessions := run sample_codec []
    [ReqStart dr_faculty None 1700000000000 "0.4fzyo82mvyr" 1700000000005;
     ReqMark "ATT-1700000000000-4fzyo82m" "CS001" None 1700000001000] in
  ∃ s, sessions !! 0%nat = Some s ∧
    ∃ s',
      out_sessions (handle sample_codec sessions
        (ReqMark "ATT-1700000000000-4fzyo82m" "CS002" (Some "Bob Smith") 1700000002000))
        !! 0%nat = Some s' ∧
      attendees s `prefix_of` attendees s'.
Proof.
  eexists. split; [reflexivity|].
  apply (proj2 mark_appends_qr_record_last). reflexivity.
Defined.

(** C2, as stated, fails: the record a mark appends carries the method tag
    "qr", which is not "scan". *)
Lemma mark_method_is_not_scan :
  let sessions := run sample_codec []
    [ReqStart dr_faculty None 1700000000000 "0.4fzyo82mvyr" 1700000000005] in
  let o := attendance_mark sessions "ATT-1700000000000-4fzyo82m" "CS001" None 1700000001000 in
  ∃ s record,
    out_sessions o = [s] ∧ attendees s = [record] ∧
    out_response o = json (BMarked "Attendance marked successfully" "Student CS001") ∧
    method record = "qr" ∧ method record ≠ "scan".
Proof.
  eexists _, _. split_and!; [reflexivity..|]. simpl. discriminate.
Qed.

(** ** Ending a session *)

Lemma end_not_found sessions user sessionId now :
  sessionId ≫= (λ n, list_find (λ s, session_id s = n) sessions) = None →
  sessions_end sessions user sessionId now =
  reply sessions {| status := 404; body := BError "Session not found" |}.
Proof. intros H. unfold sessions_end. by rewrite H. Qed.

Lemma end_forbidden sessions user n now i s :
  list_find (λ s, session_id s = n) sessions = Some (i, s) →
  professorId s ≠ user_id user →
  sessions_end sessions user (Some n) now =
  reply sessions {| status := 403; body := BError "Access denied" |}.
Proof. intros H Hne. unfold sessions_end. simpl. rewrite H. by rewrite bool_decide_true. Qed.

Lemma end_by_owner sessions user n now i s :
  list_find (λ s, session_id s = n) sessions = Some (i, s) →
  professorId s = user_id user →
  sessions_end sessions user (Some n) now =
  reply (<[i := set_ended s now]> sessions) (json (BMessage "Session ended successfully")).
Proof.
  intros H Heq. unfold sessions_end. simpl. rewrite H.
  rewrite bool_decide_false; [done|]. by intros ?.
Qed.

(** ** Session ids *)

(** Where ids are sequential, the id lookup finds each session at its own
    position. *)
Lemma find_by_id sessions i s :
  ids_sequential sessions →
  sessions !! i = Some s →
  list_find (λ s', session_id s' = session_id s) sessions = Some (i, s).
Proof.
  intros Hseq Hi. apply list_find_Some. split_and!; [done..|].
  intros j y Hj Hlt. rewrite (Hseq _ _ Hj), (Hseq _ _ Hi). lia.
Qed.

Lemma find_by_id_None sessions n :
  ids_sequential sessions →
  (n ≤ 0 ∨ Z.of_nat (length sessions) < n) →
  list_find (λ s, session_id s = n) sessions = None.
Proof.
  intros Hseq Hn. apply list_find_None, Forall_forall.
  intros s [i Hi]%list_elem_of_lookup. rewrite (Hseq _ _ Hi).
  apply lookup_lt_Some in Hi. lia.
Qed.

Lemma ids_sequential_insert sessions i s s' :
  ids_sequential sessions →
  sessions !! i = Some s →
  session_id s' = session_id s →
  ids_sequential (<[i := s']> sessions).
Proof.
  intros Hseq Hi Hid j y [(-> & <- & _)|[Hne Hj]]%list_lookup_insert_Some.
  - rewrite Hid. by apply Hseq.
  - by apply Hseq.
Qed.

Section Ids.

Variable toDataURL : string → string + string.

Lemma handle_ids_sequential sessions r :
  ids_sequential sessions →
  ids_sequential (out_sessions (handle toDataURL sessions r)).
Proof.
  intros Hseq.
  destruct r as [user cls dateNow rnd startNow|code sid name now|user n now]; simpl.
  - unfold sessions_start. case_bool_decide; [done|].
    destruct (toDataURL _) as [err|qr]; [done|]. simpl.
    intros i s [Hi|[Hlen Hi]]%lookup_app_Some; [by apply Hseq|].
    apply list_lookup_singleton_Some in Hi as [Hi <-]. simpl. lia.
  - destruct (mark_cases sessions code sid name now) as [(-> & _)|(i & s & Hfind & _ & ->)];
      [done|]. simpl.
    apply list_find_Some in Hfind as (Hi & _ & _).
    by eapply ids_sequential_insert.
  - unfold sessions_end.
    destruct (n ≫= _) as [[i s]|] eqn:Hfind; [|done].
    case_bool_decide; [done|]. simpl.
    destruct n as [n|]; [|done]. simpl in Hfind.
    apply list_find_Some in Hfind as (Hi & _ & _).
    by eapply ids_sequential_insert.
Qed.

Lemma run_ids_sequential rs : ∀ sessions,
  ids_sequential sessions → ids_sequential (run toDataURL sessions rs).
Proof.
  induction rs as [|r rs IH]; intros sessions Hseq; simpl; [done|].
  by apply IH, handle_ids_sequential.
Qed.

Lemma reachable_ids_sequential rs : ids_sequential (run toDataURL [] rs).
Proof. apply run_ids_sequential. by intros i s ?. Qed.

End Ids.

(** ** The lookup of the mark handler *)

Lemma find_open_None sessions code :
  (∀ s, s ∈ sessions → sessionCode s = code → isActive s = false) →
  list_find (λ s, sessionCode s = code ∧ isActive s = true) sessions = None.
Proof.
  intros Hnone. apply list_find_None, Forall_forall.
  intros s Hs [Hcode Hactive]. rewrite (Hnone s Hs Hcode) in Hactive. discriminate.
Qed.

(** What the lookup of the mark handler guarantees.  A mark is answered 200
    only if some session of the registry has exactly that code and is active.
    If no session has the code and is active, the answer is 404 'Session not
    found or expired', the registry is unchanged and nothing is emitted; this
    is the answer for a code that was never issued, and the same answer is
    given after the owner has ended a session as long as the code identifies
    that session alone among the active ones. *)
Theorem mark_needs_open_session :
  (∀ sessions code sid name now,
     status (out_response (attendance_mark sessions code sid name now)) = 200 →
     ∃ s, s ∈ sessions ∧ sessionCode s = code ∧ isActive s = true) ∧
  (∀ sessions code sid name now,
     (∀ s, s ∈ sessions → sessionCode s = code → isActive s = false) →
     attendance_mark sessions code sid name now =
     {| out_sessions := sessions;
        out_response := {| status := 404; body := BError "Session not found or expired" |};
        out_events := [] |}) ∧
  (∀ sessions code sid name now,
     code ∉ sessionCode <$> sessions →
     attendance_mark sessions code sid name now =
     {| out_sessions := sessions;
        out_response := {| status := 404; body := BError "Session not found or expired" |};
        out_events := [] |}) ∧
  (∀ toDataURL rs user i s endNow sid name now,
     let sessions := run toDataURL [] rs in
     let ended := sessions_end sessions user (Some (session_id s)) endNow in
     sessions !! i = Some s →
     professorId s = user_id user →
     (∀ j s', sessions !! j = Some s' → j ≠ i →
              sessionCode s' = sessionCode s → isActive s' = false) →
     status (out_response ended) = 200 ∧
     attendance_mark (out_sessions ended) (sessionCode s) sid name now =
     {| out_sessions := out_sessions ended;
        out_response := {| status := 404; body := BError "Session not found or expired" |};
        out_events := [] |}).
Proof.
  split_and!.
  - intros sessions code sid name now Hok.
    destruct (mark_ok_find _ _ _ _ _ Hok) as (i & s & (Hi & [Hc Ha] & _)%list_find_Some).
    exists s. split_and!; [|done..]. by eapply list_elem_of_lookup_2.
  - intros sessions code sid name now Hnone.
    by rewrite mark_not_found by by apply find_open_None.
  - intros sessions code sid name now Hnone.
    rewrite mark_not_found; [done|]. apply find_open_None.
    intros s Hs Hcode. destruct Hnone. rewrite <- Hcode.
    by apply list_elem_of_fmap_2.
  - intros toDataURL rs user i s endNow sid name now sessions ended Hi Howner Hothers.
    subst ended.
    rewrite (end_by_owner sessions user _ endNow i s);
      [|by apply find_by_id; [apply reachable_ids_sequential|]|done].
    split; [done|]. simpl.
    rewrite mark_not_found; [done|]. apply find_open_None.
    intros s' [j Hj]%list_elem_of_lookup Hcode.
    apply list_lookup_insert_Some in Hj as [(-> & <- & _)|[Hne Hj]]; [done|].
    by eapply Hothers.
Qed.

Lemma mark_needs_open_session_witness :
  let rs := [ReqStart dr_faculty None 1700000000000 "0.4fzyo82mvyr" 1700000000005;
             ReqMark "ATT-1700000000000-4fzyo82m" "CS001" None 1700000001000] in
  let sessions := run sample_codec [] rs in
  let ended := sessions_end sessions dr_faculty (Some 1) 1700000003000 in
  let not_found :=
    {| status := 404; body := BError "Session not found or expired" |} in
  (status (out_response ended) = 200 ∧
   attendance_mark (out_sessions ended) "ATT-1700000000000-4fzyo82m" "CS002" None
                   1700000004000 =
   {| out_sessions := out_sessions ended; out_response := not_found; out_events := [] |}) ∧
  attendance_mark sessions "ATT-0-never" "CS002" None 1700000004000 =
  {| out_sessions := sessions; out_response := not_found; out_events := [] |} ∧
  attendance_mark [] "ATT-1700000000000-4fzyo82m" "CS002" None 1700000004000 =
  {| out_sessions := []; out_response := not_found; out_events := [] |} ∧
  (∃ s, s ∈ sessions ∧ sessionCode s = "ATT-1700000000000-4fzyo82m" ∧ isActive s = true).
Proof.
  intros rs sessions ended not_found.
  assert (∃ s, sessions !! 0%nat = Some s) as [s Hs] by (eexists; reflexivity).
  injection Hs as <-.
  split; [|split; [|split]].
  - refine (proj2 (proj2 (proj2 mark_needs_open_session))
              sample_codec rs dr_faculty 0%nat _ 1700000003000 "CS002" None 1700000004000
              eq_refl eq_refl _).
    intros [|j] s' Hj Hne; [done|]. discriminate Hj.
  - apply (proj1 (proj2 (proj2 mark_needs_open_session))).
    apply (bool_decide_unpack _). by vm_compute.
  - apply (proj1 (proj2 mark_needs_open_session)).
    by intros s Hs%elem_of_nil.
  - apply (proj1 mark_needs_open_session sessions _ "CS002" None 1700000004000).
    reflexivity.
Defined.

(** C3 fails on the code, by the defect of the code generator: two start
    requests served within the same millisecond with the same random draw
    get the same code, and after the first session is ended a mark against
    its code is not answered 404 but served by the second session, whose
    attendee list it extends. *)
Lemma mark_after_end_served_by_twin :
  let rs := [ReqStart dr_faculty None 1700000000000 "0.4fzyo82mvyr" 1700000000000;
             ReqStart dr_faculty (Some "DSA") 1700000000000 "0.4fzyo82mvyr" 1700000000001;
             ReqEnd dr_faculty (Some 1) 1700000003000] in
  let sessions := run sample_codec [] rs in
  let o := attendance_mark sessions "ATT-1700000000000-4fzyo82m" "CS001" None 1700000004000 in
  status <$> responses sample_codec [] rs = [200; 200; 200] ∧
  (session_id <$> sessions) = [1; 2] ∧
  (sessionCode <$> sessions) =
    ["ATT-1700000000000-4fzyo82m"; "ATT-1700000000000-4fzyo82m"] ∧
  (isActive <$> sessions) = [false; true] ∧
  out_response o = json (BMarked "Attendance marked successfully" "Student CS001") ∧
  status (out_response o) ≠ 404 ∧
  out_sessions o ≠ sessions.
Proof.
  split_and!; [reflexivity..| |]; vm_compute; discriminate.
Qed.

(** ** Session codes *)

(** The decimal numeral of the clock reading ends where the code's second
    dash stands, so a code determines both of its parts. *)
Lemma pretty_N_go_dash_free (x : N) : ∀ s, dash_free s → dash_free (pretty_N_go x s).
Proof.
  induction (N.lt_wf_0 x) as [x _ IH]; intros s Hs.
  destruct (decide (x = 0)%N) as [->|Hx]; [by rewrite pretty_N_go_0|].
  rewrite pretty_N_go_step by lia. apply IH.
  - apply N.div_lt; lia.
  - split; [|done]. unfold pretty_N_char. by repeat case_match.
Qed.

Lemma pretty_N_go_length (x : N) : ∀ s,
  (String.length s ≤ String.length (pretty_N_go x s))%nat.
Proof.
  induction (N.lt_wf_0 x) as [x _ IH]; intros s.
  destruct (decide (x = 0)%N) as [->|Hx]; [by rewrite pretty_N_go_0|].
  rewrite pretty_N_go_step by lia.
  etrans; [|apply IH; apply N.div_lt; lia]. simpl. lia.
Qed.

Lemma pretty_N_dash_free (x : N) :
  dash_free (pretty x) ∧ pretty x ≠ "".
Proof.
  unfold pretty, pretty_N. case_decide as Hx.
  - split; [|done]. simpl. split; [done|done].
  - split; [by apply pretty_N_go_dash_free|].
    rewrite pretty_N_go_step by lia. intros Heq.
    pose proof (pretty_N_go_length (x `div` 10) (String (pretty_N_char (x `mod` 10)) "")) as Hlen.
    rewrite Heq in Hlen. simpl in Hlen. lia.
Qed.

Lemma split_at_dash (d1 : string) : ∀ d2 s1 s2,
  dash_free d1 → dash_free d2 →
  d1 +:+ "-" +:+ s1 = d2 +:+ "-" +:+ s2 → d1 = d2 ∧ s1 = s2.
Proof.
  induction d1 as [|c d1 IH]; intros [|c' d2] s1 s2 H1 H2 Heq; simpl in *.
  - by injection Heq.
  - injection Heq as <- _. by destruct H2.
  - injection Heq as -> _. by destruct H1.
  - injection Heq as -> Heq. destruct H1, H2.
    destruct (IH d2 s1 s2) as [-> ->]; done.
Qed.

Lemma pretty_Z_dash (t1 t2 : Z) (s1 s2 : string) :
  pretty t1 +:+ "-" +:+ s1 = pretty t2 +:+ "-" +:+ s2 → t1 = t2 ∧ s1 = s2.
Proof.
  assert (∀ p : positive, dash_free (pretty p) ∧ pretty p ≠ "") as Hpos.
  { intros p. apply (pretty_N_dash_free (Npos p)). }
  assert (∀ (p q : positive) a b,
            pretty p +:+ "-" +:+ a ≠ "-" +:+ pretty q +:+ "-" +:+ b) as Hmixed.
  { intros p q a b Heq. destruct (Hpos p) as [Hfree Hne].
    destruct (pretty p) as [|c r]; [done|].
    simpl in Heq. injection Heq as -> _. by destruct Hfree. }
  destruct t1 as [|p|p], t2 as [|q|q]; intros Heq;
    change (pretty 0) with "0" in Heq;
    try change (pretty (Z.pos p)) with (pretty p) in Heq;
    try change (pretty (Z.pos q)) with (pretty q) in Heq;
    try change (pretty (Z.neg p)) with ("-" +:+ pretty p) in Heq;
    try change (pretty (Z.neg q)) with ("-" +:+ pretty q) in Heq.
  - by injection Heq.
  - apply (split_at_dash "0") in Heq as [Heq ->]; [|done|by apply Hpos].
    by destruct (pretty_N_go_ne_0 (N.pos q) "").
  - discriminate.
  - apply (split_at_dash _ "0") in Heq as [Heq ->]; [|by apply Hpos|done].
    by destruct (pretty_N_go_ne_0 (N.pos p) "").
  - apply split_at_dash in Heq as [Heq ->]; [|by apply Hpos..].
    by apply pretty_positive_inj in Heq as ->.
  - by apply Hmixed in Heq.
  - discriminate.
  - symmetry in Heq. by apply Hmixed in Heq.
  - simpl in Heq. injection Heq as Heq.
    apply split_at_dash in Heq as [Heq ->]; [|by apply Hpos..].
    by apply pretty_positive_inj in Heq as ->.
Qed.

(** Two codes coincide exactly when the clock readings are equal and the
    random numbers print the same (at most) eight characters after "0.". *)
Lemma generateSessionCode_eq t1 r1 t2 r2 :
  generateSessionCode t1 r1 = generateSessionCode t2 r2 ↔
  t1 = t2 ∧ String.substring 2 8 r1 = String.substring 2 8 r2.
Proof.
  unfold generateSessionCode. split.
  - intros Heq. simpl in Heq. injection Heq as Heq. by apply pretty_Z_dash.
  - by intros [-> ->].
Qed.

(** C4 fails on the code: [generateSessionCode] is a function of the clock
    reading and the random draw alone and the start handler does not look at
    the codes already in the registry.  Two start requests served within one
    millisecond with the same draw create two sessions, with ids 1 and 2,
    that carry the same code. *)
Theorem start_twice_same_code :
  let rs := [ReqStart dr_faculty None 1700000000000 "0.4fzyo82mvyr" 1700000000000;
             ReqStart dr_faculty (Some "DSA") 1700000000000 "0.4fzyo82mvyr" 1700000000001] in
  let sessions := run sample_codec [] rs in
  status <$> responses sample_codec [] rs = [200; 200] ∧
  session_id <$> sessions = [1; 2] ∧
  sessionCode <$> sessions =
    ["ATT-1700000000000-4fzyo82m"; "ATT-1700000000000-4fzyo82m"] ∧
  ¬ NoDup (sessionCode <$> sessions).
Proof.
  split_and!; [reflexivity..|].
  intros Hnd. apply NoDup_cons in Hnd as [Hnotin _]. apply Hnotin. by left.
Qed.

(** The random suffix can be shorter than eight characters: the draw 0.5
    prints as "0.i". *)
Example generateSessionCode_short_suffix :
  generateSessionCode 1700000000000 "0.i" = "ATT-1700000000000-i".
Proof. reflexivity. Qed.

(** ** Guards of start and end *)

(** C5. A start request by a user whose role is not 'faculty' is answered
    403 and creates no session.  An end request whose id no session has
    (also an id that does not parse) is answered 404.  An end request for a
    session of the registry by a user other than its professor is answered
    403 and leaves every session as it is. *)
Theorem start_end_guards :
  (∀ toDataURL sessions user reqClassName dateNow random36 startNow,
     user_role user ≠ "faculty" →
     sessions_start toDataURL sessions user reqClassName dateNow random36 startNow =
     {| out_sessions := sessions;
        out_response := {| status := 403; body := BError "Only faculty can start sessions" |};
        out_events := [] |}) ∧
  (∀ sessions user sessionId now,
     (∀ s, s ∈ sessions → Some (session_id s) ≠ sessionId) →
     sessions_end sessions user sessionId now =
     {| out_sessions := sessions;
        out_response := {| status := 404; body := BError "Session not found" |};
        out_events := [] |}) ∧
  (∀ toDataURL rs user s now,
     let sessions := run toDataURL [] rs in
     s ∈ sessions →
     user_id user ≠ professorId s →
     sessions_end sessions user (Some (session_id s)) now =
     {| out_sessions := sessions;
        out_response := {| status := 403; body := BError "Access denied" |};
        out_events := [] |}).
Proof.
  split_and!.
  - intros toDataURL sessions user cls dateNow rnd startNow Hrole.
    unfold sessions_start. by rewrite bool_decide_true.
  - intros sessions user sessionId now Hnone.
    rewrite end_not_found; [done|].
    destruct sessionId as [n|]; [|done]. simpl.
    apply list_find_None, Forall_forall. intros s Hs Hid.
    apply (Hnone s Hs). by rewrite Hid.
  - intros toDataURL rs user s now sessions [i Hi]%list_elem_of_lookup Hne.
    erewrite end_forbidden; [done| |by intros ?].
    apply find_by_id; [apply reachable_ids_sequential|done].
Qed.

Lemma start_end_guards_witness :
  let rs := [ReqStart dr_faculty None 1700000000000 "0.4fzyo82mvyr" 1700000000005] in
  let sessions := run sample_codec [] rs in
  let other_faculty :=
    {| user_id := "7"; user_role := "faculty"; user_name := "Dr. Other";
       user_department := Some "ECE"; user_rollNo := None |} in
  sessions_start sample_codec sessions alice (Some "DSA") 1700000000000 "0.4fzyo82mvyr"
                 1700000000000 =
  {| out_sessions := sessions;
     out_response := {| status := 403; body := BError "Only faculty can start sessions" |};
     out_events := [] |} ∧
  sessions_end sessions dr_faculty (Some 2) 1700000003000 =
  {| out_sessions := sessions;
     out_response := {| status := 404; body := BError "Session not found" |};
     out_events := [] |} ∧
  sessions_end sessions other_faculty (Some 1) 1700000003000 =
  {| out_sessions := sessions;
     out_response := {| status := 403; body := BError "Access denied" |};
     out_events := [] |}.
Proof.
  intros rs sessions other_faculty. split_and!.
  - apply (proj1 start_end_guards). simpl. discriminate.
  - apply (proj1 (proj2 start_end_guards)).
    apply Forall_forall. repeat constructor. simpl. discriminate.
  - eassert (sessions !! 0%nat = Some _) as Hs by reflexivity.
    apply list_elem_of_lookup_2 in Hs.
    refine (proj2 (proj2 start_end_guards) sample_codec rs other_faculty _
              1700000003000 Hs _).
    simpl. discriminate.
Defined.

(** ** What end changes *)

(** C6. When the professor of a session of the registry ends it, the answer
    is 200 'Session ended successfully' and nothing is emitted; that session
    becomes inactive with the time of the request as its end time, all its
    other fields, the attendees among them, stay as they were, and every
    other session of the registry stays as it was.  The session need not be
    active: ending it again is answered in the same way and overwrites the
    end time. *)
Theorem end_by_owner_frame :
  ∀ toDataURL rs user i s now,
    let sessions := run toDataURL [] rs in
    let o := sessions_end sessions user (Some (session_id s)) now in
    sessions !! i = Some s →
    professorId s = user_id user →
    out_response o = {| status := 200; body := BMessage "Session ended successfully" |} ∧
    out_events o = [] ∧
    length (out_sessions o) = length sessions ∧
    (∀ j, j ≠ i → out_sessions o !! j = sessions !! j) ∧
    (∃ s', out_sessions o !! i = Some s' ∧
       isActive s' = false ∧ endTime s' = Some now ∧
       attendees s' = attendees s ∧ sessionCode s' = sessionCode s ∧
       session_id s' = session_id s ∧ professorId s' = professorId s ∧
       professorName s' = professorName s ∧ className s' = className s ∧
       qrCode s' = qrCode s ∧ startTime s' = startTime s) ∧
    (∀ again,
       let o2 := sessions_end (out_sessions o) user (Some (session_id s)) again in
       out_response o2 =
         {| status := 200; body := BMessage "Session ended successfully" |} ∧
       out_events o2 = [] ∧
       (∀ j, j ≠ i → out_sessions o2 !! j = sessions !! j) ∧
       ∃ s'', out_sessions o2 !! i = Some s'' ∧
         isActive s'' = false ∧ endTime s'' = Some again ∧
         attendees s'' = attendees s).
Proof.
  intros toDataURL rs user i s now sessions o Hi Howner.
  assert (ids_sequential sessions) as Hseq by apply reachable_ids_sequential.
  assert (i < length sessions)%nat as Hlt by by eapply lookup_lt_Some.
  assert (o = reply (<[i := set_ended s now]> sessions)
                    (json (BMessage "Session ended successfully"))) as ->.
  { subst o. eapply end_by_owner; [by apply find_by_id | done]. }
  simpl. split_and!; [done | done | by rewrite length_insert | | |].
  - intros j Hne. by rewrite list_lookup_insert_ne.
  - exists (set_ended s now). by rewrite list_lookup_insert_eq.
  - intros again.
    rewrite (end_by_owner _ user _ again i (set_ended s now)); [|  |done].
    + simpl. rewrite list_insert_insert_eq. split_and!; [done..| |].
      * intros j Hne. by rewrite list_lookup_insert_ne.
      * exists (set_ended s again). by rewrite list_lookup_insert_eq.
    + apply (find_by_id _ i (set_ended s now)).
      * by eapply ids_sequential_insert.
      * by rewrite list_lookup_insert_eq.
Qed.

Lemma end_by_owner_frame_witness :
  let rs := [ReqStart dr_faculty None 1700000000000 "0.4fzyo82mvyr" 1700000000005;
             ReqMark "ATT-1700000000000-4fzyo82m" "CS001" None 1700000001000] in
  let o := sessions_end (run sample_codec [] rs) dr_faculty (Some 1) 1700000003000 in
  out_response o = {| status := 200; body := BMessage "Session ended successfully" |} ∧
  (isActive <$> out_sessions o) = [false] ∧
  (endTime <$> out_sessions o) = [Some 1700000003000] ∧
  (attendees <$> out_sessions o) =
    [[ {| studentId := "CS001"; studentName := "Student CS001";
          timestamp := 1700000001000; method := "qr" |} ]].
Proof.
  intros rs o.
  assert (∃ s, run sample_codec [] rs !! 0%nat = Some s) as [s Hs]
    by (eexists; reflexivity).
  injection Hs as <-.
  pose proof (end_by_owner_frame sample_codec rs dr_faculty 0%nat _ 1700000003000
                eq_refl eq_refl) as (Hr & _).
  split; [exact Hr | by vm_compute].
Defined.

(** ** Rounded means *)

(** [Math.round(a / b)] for a positive divisor, in integer arithmetic. *)
Lemma half_up_quotient (a b : Z) :
  0 < b →
  Qfloor (inject_Z a / inject_Z b + (1 # 2)) = (2 * a + b) / (2 * b).
Proof.
  intros Hb. destruct b as [|p|p]; try lia.
  rewrite (Qfloor_comp _ ((2 * a + Z.pos p) # (2 * p))).
  - reflexivity.
  - unfold Qeq, Qdiv, Qinv, Qmult, Qplus, inject_Z. simpl. lia.
Qed.

Lemma Math_round_div (a b : Z) :
  0 < b →
  Math_round (js_div a b) = JsNum (inject_Z ((2 * a + b) / (2 * b))).
Proof.
  intros Hb. unfold js_div.
  destruct (Z.eqb_spec b 0) as [->|_]; [lia|].
  unfold Math_round. by rewrite half_up_quotient.
Qed.

Lemma half_up_nearest (a b : Z) :
  0 < b →
  let m := (2 * a + b) / (2 * b) in
  (inject_Z a / inject_Z b - (1 # 2) < inject_Z m)%Q ∧
  (inject_Z m <= inject_Z a / inject_Z b + (1 # 2))%Q.
Proof.
  intros Hb m. subst m. rewrite <- half_up_quotient by done.
  set (x := (inject_Z a / inject_Z b + (1 # 2))%Q).
  split.
  - pose proof (Qlt_floor x) as Hlt.
    rewrite inject_Z_plus in Hlt.
    apply (Qplus_lt_l _ _ 1).
    eapply Qle_lt_trans; [|exact Hlt].
    subst x. apply Qle_lteq. right. ring.
  - apply Qfloor_le.
Qed.

Lemma js_ge_integer (m n : Z) : js_ge (JsNum (inject_Z m)) n = (n <=? m).
Proof. unfold js_ge, Qle_bool. simpl. by rewrite !Z.mul_1_r. Qed.

(** The [reduce] of the handlers adds up the column. *)
Lemma reduce_sum_foldr (f : Student → Z) (l : list Student) :
  reduce_sum f l = foldr Z.add 0 (f <$> l).
Proof.
  unfold reduce_sum.
  assert (∀ acc, foldl (λ sum s, sum + f s) acc l = acc + foldr Z.add 0 (f <$> l)) as H.
  { induction l as [|s l IH]; intros acc; csimpl; [lia|]. rewrite IH. lia. }
  by rewrite H.
Qed.

(** One entry of the principal's summary. *)
Lemma dept_analytics_entry (roster : list Student) (dept : string) :
  let e := dept_analytics roster dept in
  let ds := filter (λ s, department s = dept) roster in
  let total := foldr Z.add 0 (attendance <$> ds) in
  da_department e = dept ∧
  da_totalStudents e = length ds ∧
  da_atRiskStudents e = length (filter (λ s, attendance s < 75) ds) ∧
  ∃ m : Z,
    da_avgAttendance e = JsNum (inject_Z m) ∧
    (length ds = 0%nat → m = 0) ∧
    (length ds ≠ 0%nat →
       (inject_Z total / inject_Z (Z.of_nat (length ds)) - (1 # 2) < inject_Z m)%Q ∧
       (inject_Z m <= inject_Z total / inject_Z (Z.of_nat (length ds)) + (1 # 2))%Q) ∧
    da_remark e =
      (if 85 <=? m then "Excellent"
       else if 75 <=? m then "Good" else "Needs Improvement").
Proof.
  intros e ds total. subst e. unfold dept_analytics. fold ds. simpl.
  split_and!; [done..|].
  rewrite reduce_sum_foldr. fold total.
  case_bool_decide as Hn.
  - exists ((2 * total + Z.of_nat (length ds)) / (2 * Z.of_nat (length ds))).
    rewrite Math_round_div by lia. rewrite !js_ge_integer.
    split_and!; [done | lia | | done].
    intros _. apply half_up_nearest. lia.
  - exists 0. split_and!; [done | done | lia | done].
Qed.

(** C7. For a principal the summary has one entry per department code
    'CSE', 'ECE', 'EEE', 'IT', 'MECH', in this order.  The entry of a
    department gives the number of its students, the number of those whose
    attendance is below 75, an integer average that is 0 when the department
    has no student and otherwise lies within one half of the arithmetic mean
    of the attendances, and the remark 'Excellent' from 85, 'Good' from 75
    and 'Needs Improvement' below, read off that integer.  A department with
    attendances 94, 74, 80, 69 gets the average 79 and the remark 'Good'. *)
Theorem principal_department_summary :
  (∀ roster user,
     user_role user = "principal" →
     ∃ analytics,
       analytics_principal roster user = {| status := 200; body := BPrincipal analytics |} ∧
       da_department <$> analytics = ["CSE"; "ECE"; "EEE"; "IT"; "MECH"] ∧
       ∀ e, e ∈ analytics →
         let ds := filter (λ s, department s = da_department e) roster in
         let total := foldr Z.add 0 (attendance <$> ds) in
         da_totalStudents e = length ds ∧
         da_atRiskStudents e = length (filter (λ s, attendance s < 75) ds) ∧
         ∃ m : Z,
           da_avgAttendance e = JsNum (inject_Z m) ∧
           (length ds = 0%nat → m = 0) ∧
           (length ds ≠ 0%nat →
              (inject_Z total / inject_Z (Z.of_nat (length ds)) - (1 # 2) < inject_Z m)%Q ∧
              (inject_Z m <= inject_Z total / inject_Z (Z.of_nat (length ds)) + (1 # 2))%Q) ∧
           da_remark e =
             (if 85 <=? m then "Excellent"
              else if 75 <=? m then "Good" else "Needs Improvement")) ∧
  (∀ roster dept,
     attendance <$> filter (λ s, department s = dept) roster = [94; 74; 80; 69] →
     da_avgAttendance (dept_analytics roster dept) = JsNum 79 ∧
     da_remark (dept_analytics roster dept) = "Good").
Proof.
  split.
  - intros roster user Hrole.
    exists (dept_analytics roster <$> departments).
    unfold analytics_principal. rewrite bool_decide_false by (by intros []).
    split_and!; [done | done |].
    intros e (dept & -> & _)%list_elem_of_fmap.
    destruct (dept_analytics_entry roster dept) as (Hd & Ht & Hr & m & Hm).
    rewrite Hd. split_and!; [done | done |]. by exists m.
  - intros roster dept Hatt.
    assert (length (filter (λ s, department s = dept) roster) = 4%nat) as Hlen.
    { by rewrite <- (length_fmap attendance), Hatt. }
    unfold dept_analytics. rewrite reduce_sum_foldr, Hatt, Hlen. simpl.
    by vm_compute.
Qed.

Lemma principal_department_summary_witness :
  (∃ analytics,
     analytics_principal students dr_principal =
       {| status := 200; body := BPrincipal analytics |} ∧
     da_department <$> analytics = ["CSE"; "ECE"; "EEE"; "IT"; "MECH"]) ∧
  da_avgAttendance (dept_analytics students "CSE") = JsNum 79 ∧
  da_remark (dept_analytics students "CSE") = "Good".
Proof.
  split.
  - destruct (proj1 principal_department_summary students dr_principal eq_refl)
      as (analytics & Hr & Hd & _).
    by exists analytics.
  - apply (proj2 principal_department_summary students "CSE"). reflexivity.
Defined.

(** ** Broadcasts *)

(** The first active session with the code is the one [find] returns. *)
Lemma first_open_find sessions code i s :
  sessions !! i = Some s →
  sessionCode s = code → isActive s = true →
  (∀ j s', sessions !! j = Some s' → (j < i)%nat →
           ¬ (sessionCode s' = code ∧ isActive s' = true)) →
  list_find (λ s, sessionCode s = code ∧ isActive s = true) sessions = Some (i, s).
Proof. intros Hi Hcode Hactive Hleast. by apply list_find_Some. Qed.



(** ** The name shown for a participant *)

(** C9 (as amended). A mark against the first active session with the
    code, for a participant that session does not list yet, answers 200
    'Attendance marked successfully' together with the participant name and
    appends a record carrying the same name and the participant id; the name
    is the one in the request when that is a non-empty string, and
    "Student " followed by the participant id when the request has no name
    or an empty one. *)
Theorem mark_resolved_name :
  ∀ sessions code sid name now i s,
    sessions !! i = Some s →
    sessionCode s = code → isActive s = true →
    (∀ j s', sessions !! j = Some s' → (j < i)%nat →
             ¬ (sessionCode s' = code ∧ isActive s' = true)) →
    sid ∉ studentId <$> attendees s →
    let o := attendance_mark sessions code sid name now in
    ∃ shown s' record,
      out_response o =
        {| status := 200; body := BMarked "Attendance marked successfully" shown |} ∧
      out_sessions o !! i = Some s' ∧
      attendees s' = attendees s ++ [record] ∧
      studentId record = sid ∧ studentName record = shown ∧
      (∀ given, name = Some given → given ≠ "" → shown = given) ∧
      (name = None ∨ name = Some "" → shown = "Student " +:+ sid).
Proof.
  intros sessions code sid name now i s Hi Hcode Hactive Hleast Hnew o.
  pose proof (first_open_find sessions code i s Hi Hcode Hactive Hleast) as Hfind.
  subst o. rewrite (mark_fresh sessions code sid name now i s Hfind Hnew).
  set (record := {| studentId := sid; studentName := js_or name ("Student " +:+ sid);
                    timestamp := now; method := "qr" |}).
  exists (js_or name ("Student " +:+ sid)),
         (set_attendees s (attendees s ++ [record])), record. simpl.
  split; [done|]. split; [|split; [done|]].
  - apply list_lookup_insert_eq. by eapply lookup_lt_Some.
  - split; [done|]. split; [done|]. split.
    + intros given -> Hne. simpl. by rewrite bool_decide_false.
    + by intros [-> | ->].
Qed.

Lemma mark_resolved_name_witness :
  let sessions := run sample_codec []
    [ReqStart dr_faculty None 1700000000000 "0.4fzyo82mvyr" 1700000000005] in
  let code := "ATT-1700000000000-4fzyo82m" in
  let named := attendance_mark sessions code "CS002" (Some "Bob Smith") 1700000001000 in
  let unnamed := attendance_mark sessions code "CS001" None 1700000001000 in
  (out_response named =
     {| status := 200; body := BMarked "Attendance marked successfully" "Bob Smith" |} ∧
   ∃ s' record, out_sessions named !! 0%nat = Some s' ∧ attendees s' = [] ++ [record] ∧
     studentId record = "CS002" ∧ studentName record = "Bob Smith") ∧
  (out_response unnamed =
     {| status := 200; body := BMarked "Attendance marked successfully" "Student CS001" |} ∧
   ∃ s' record, out_sessions unnamed !! 0%nat = Some s' ∧ attendees s' = [] ++ [record] ∧
     studentId record = "CS001" ∧ studentName record = "Student CS001").
Proof.
  intros sessions code named unnamed.
  eassert (sessions !! 0%nat = Some _) as Hs by reflexivity.
  assert (∀ j s', sessions !! j = Some s' → (j < 0)%nat →
                  ¬ (sessionCode s' = code ∧ isActive s' = true)) as Hleast
    by (intros j s' _ Hlt; lia).
  split.
  - destruct (mark_resolved_name sessions code "CS002" (Some "Bob Smith") 1700000001000
                0%nat _ Hs eq_refl eq_refl Hleast)
      as (shown & s' & record & Hr & Hs' & Hatt & Hid & Hname & Hgiven & _).
    { apply not_elem_of_nil. }
    rewrite (Hgiven "Bob Smith" eq_refl) in Hr, Hname by discriminate.
    split; [exact Hr|]. by exists s', record.
  - destruct (mark_resolved_name sessions code "CS001" None 1700000001000
                0%nat _ Hs eq_refl eq_refl Hleast)
      as (shown & s' & record & Hr & Hs' & Hatt & Hid & Hname & _ & Hdefault).
    { apply not_elem_of_nil. }
    rewrite (Hdefault (or_introl eq_refl)) in Hr, Hname.
    split; [exact Hr|]. by exists s', record.
Defined.

(** C9, as stated, fails for a request whose name is the empty string: the
    name shown and stored is the placeholder, not the name supplied. *)
Lemma mark_empty_name_gets_placeholder :
  let sessions := run sample_codec []
    [ReqStart dr_faculty None 1700000000000 "0.4fzyo82mvyr" 1700000000005] in
  let supplied := "" in
  let o := attendance_mark sessions "ATT-1700000000000-4fzyo82m" "CS002"
                           (Some supplied) 1700000001000 in
  ∃ shown,
    out_response o = json (BMarked "Attendance marked successfully" shown) ∧
    (λ s, studentName <$> attendees s) <$> out_sessions o = [[shown]] ∧
    shown = "Student CS002" ∧ shown ≠ supplied.
Proof.
  eexists. split_and!; [reflexivity..|]. discriminate.
Qed.

(** ** Analytics of an empty department *)

Lemma filter_none {A} (P : A → Prop) `{∀ x, Decision (P x)} (l : list A) :
  (∀ x, x ∈ l → ¬ P x) → filter P l = [].
Proof.
  induction l as [|x l IH]; intros Hnone; [done|].
  rewrite filter_cons_False by (apply Hnone; by left).
  apply IH. intros y Hy. apply Hnone. by right.
Qed.

(** C10. The department head's and the faculty's analytics divide by the
    number of students of the caller's department without a guard: for a
    caller whose department no roster entry has, the averages are NaN, the
    number of students is 0 and no student is at risk.  The principal's
    summary reports the average 0 for a department without students. *)
Theorem empty_department_average_is_NaN :
  ∀ roster user,
    (∀ s, s ∈ roster → Some (department s) ≠ user_department user) →
    (user_role user = "hod" →
     analytics_hod roster user =
     {| status := 200; body := BHod (user_department user) 0 JsNaN [] |}) ∧
    (user_role user = "faculty" →
     analytics_faculty roster user =
     {| status := 200;
        body := BFaculty [] {| cs_totalStudents := 0; cs_avgAttendance := JsNaN;
                               cs_avgMarks := JsNaN; cs_atRiskCount := 0 |} |}) ∧
    (∀ dept, user_department user = Some dept →
       da_avgAttendance (dept_analytics roster dept) = JsNum 0 ∧
       da_totalStudents (dept_analytics roster dept) = 0%nat).
Proof.
  intros roster user Hnone.
  assert (of_department roster user = []) as Hempty.
  { unfold of_department. by apply filter_none. }
  split_and!.
  - intros Hrole. unfold analytics_hod.
    rewrite bool_decide_false by (by intros []). by rewrite Hempty.
  - intros Hrole. unfold analytics_faculty.
    rewrite bool_decide_false by (by intros []). by rewrite Hempty.
  - intros dept Hdept. unfold dept_analytics.
    rewrite (filter_none (λ s, department s = dept)); [done|].
    intros s Hs Heq. apply (Hnone s Hs). by rewrite Hdept, Heq.
Qed.

Lemma empty_department_average_is_NaN_witness :
  let civil_hod :=
    {| user_id := "6"; user_role := "hod"; user_name := "Prof. Civil";
       user_department := Some "CIVIL"; user_rollNo := None |} in
  let civil_faculty :=
    {| user_id := "7"; user_role := "faculty"; user_name := "Dr. Civil";
       user_department := Some "CIVIL"; user_rollNo := None |} in
  analytics_hod students civil_hod =
  {| status := 200; body := BHod (Some "CIVIL") 0 JsNaN [] |} ∧
  analytics_faculty students civil_faculty =
  {| status := 200;
     body := BFaculty [] {| cs_totalStudents := 0; cs_avgAttendance := JsNaN;
                            cs_avgMarks := JsNaN; cs_atRiskCount := 0 |} |} ∧
  da_avgAttendance (dept_analytics students "CIVIL") = JsNum 0.
Proof.
  intros civil_hod civil_faculty.
  assert (∀ s, s ∈ students → Some (department s) ≠ Some "CIVIL") as Hnone.
  { intros s Hs. repeat (apply elem_of_cons in Hs as [->|Hs]; [by simpl|]).
    by apply elem_of_nil in Hs. }
  split_and!.
  - exact (proj1 (empty_department_average_is_NaN students civil_hod Hnone) eq_refl).
  - exact (proj1 (proj2 (empty_department_average_is_NaN students civil_faculty Hnone))
             eq_refl).
  - exact (proj1 (proj2 (proj2 (empty_department_average_is_NaN students civil_hod Hnone))
                    "CIVIL" eq_refl)).
Defined.


(** * Further properties of the server *)

(** ** The authorization header *)

Lemma append_cons (c : ascii) (a b : string) :
  String c a +:+ b = String c (a +:+ b).
Proof. reflexivity. Qed.

Lemma append_empty_r (s : string) : s +:+ "" = s.
Proof. induction s as [|c s IH]; [done|]. by rewrite append_cons, IH. Qed.

Lemma split_spaces_single (a : string) :
  space_free a → split_spaces a = [a].
Proof.
  induction a as [|c a IH]; simpl; [done|]. intros [Hc Ha].
  rewrite bool_decide_false by done. by rewrite IH.
Qed.

(** The first piece ends at the first space. *)
Lemma split_spaces_first (a rest : string) :
  space_free a → split_spaces (a +:+ " " +:+ rest) = a :: split_spaces rest.
Proof.
  induction a as [|c a IH]; [done|]. intros [Hc Ha].
  rewrite append_cons. simpl.
  rewrite bool_decide_false by done. by rewrite IH.
Qed.

Lemma append_space_nonempty (a rest : string) : a +:+ " " +:+ rest ≠ "".
Proof. by destruct a. Qed.

(** The header the client sends: 'Bearer ' and the token. *)
Lemma bearer_header jwt_verify (token : string) :
  space_free token → token ≠ "" →
  authenticateToken jwt_verify (Some ("Bearer " +:+ token)) =
  match jwt_verify token with
  | Some claims => Sent claims
  | None => Refused 403 "Invalid token"
  end.
Proof.
  intros Hfree Hne. unfold authenticateToken.
  change ("Bearer " +:+ token) with ("Bearer" +:+ " " +:+ token).
  rewrite bool_decide_false by apply append_space_nonempty.
  rewrite split_spaces_first by (simpl; repeat split; discriminate).
  rewrite split_spaces_single by done. simpl. by rewrite bool_decide_false.
Qed.

(** X1. The middleware reads the token between the first and the second
    space of the header: it does not look at the scheme before the first
    space, whatever follows a second space is ignored, and the request is
    let through with the payload of that token exactly when the token
    verifies (403 'Invalid token' otherwise). *)
Theorem header_token_is_second_word :
  ∀ jwt_verify scheme token rest,
    space_free scheme → space_free token → token ≠ "" →
    (rest = "" ∨ ∃ more, rest = " " +:+ more) →
    authenticateToken jwt_verify (Some (scheme +:+ " " +:+ token +:+ rest)) =
    match jwt_verify token with
    | Some claims => Sent claims
    | None => Refused 403 "Invalid token"
    end.
Proof.
  intros jwt_verify scheme token rest Hscheme Htoken Hne Hrest.
  unfold authenticateToken.
  rewrite bool_decide_false by apply append_space_nonempty.
  rewrite split_spaces_first by done.
  assert (split_spaces (token +:+ rest) !! 0%nat = Some token) as Hpiece.
  { destruct Hrest as [->|[more ->]].
    - by rewrite append_empty_r, split_spaces_single.
    - by rewrite split_spaces_first. }
  simpl. rewrite Hpiece. by rewrite bool_decide_false.
Qed.

Lemma header_token_is_second_word_witness :
  authenticateToken sample_verify (Some "Token jwt.3 trailing words") =
  Sent (claims_of {| account_id := "3"; account_username := "faculty";
                     account_password := "$2a$10$hash"; account_role := "faculty";
                     account_name := "Dr. Faculty"; account_department := Some "CSE";
                     account_rollNo := None |}).
Proof.
  apply (header_token_is_second_word sample_verify "Token" "jwt.3" " trailing words").
  - simpl. repeat split; discriminate.
  - simpl. repeat split; discriminate.
  - discriminate.
  - right. by exists "trailing words".
Defined.

(** X2. A request without an authorization header, with a header that has
    no space, or with a header whose first space is its last character or is
    followed by another space, is answered 401 'Access token required'; the
    token library is not consulted. *)
Theorem header_without_token_unauthorized :
  ∀ jwt_verify,
    authenticateToken jwt_verify None = Refused 401 "Access token required" ∧
    ∀ scheme rest,
      space_free scheme →
      (rest = "" ∨ ∃ more, rest = " " +:+ more) →
      authenticateToken jwt_verify (Some scheme) =
        Refused 401 "Access token required" ∧
      authenticateToken jwt_verify (Some (scheme +:+ " " +:+ rest)) =
        Refused 401 "Access token required".
Proof.
  intros jwt_verify. split; [done|].
  intros scheme rest Hscheme Hrest. unfold authenticateToken. split.
  - case_bool_decide; [done|]. by rewrite split_spaces_single.
  - rewrite bool_decide_false by apply append_space_nonempty.
    rewrite split_spaces_first by done.
    destruct Hrest as [->|[more ->]]; [done|].
    by change (split_spaces (" " +:+ more)) with ("" :: split_spaces more).
Qed.

Lemma header_without_token_unauthorized_witness :
  authenticateToken sample_verify (Some "Bearer") =
    Refused 401 "Access token required" ∧
  authenticateToken sample_verify (Some "Bearer  jwt.3") =
    Refused 401 "Access token required".
Proof.
  apply (proj2 (header_without_token_unauthorized sample_verify) "Bearer" " jwt.3").
  - simpl. repeat split; discriminate.
  - right. by exists "jwt.3".
Defined.

(** ** Who can write to the registry *)

(** X3. Through the authenticated routes the registry changes only for a
    caller whose token verified: a start request changes it only for the
    role 'faculty', by appending one session owned by the caller; an end
    request changes it only at a session with the given id whose professor
    is the caller. *)
Theorem registry_written_only_by_verified_owner :
  ∀ jwt_verify toDataURL sessions authorization,
    (∀ reqClassName dateNow random36 startNow,
       let o := route_sessions_start jwt_verify toDataURL sessions authorization
                                     reqClassName dateNow random36 startNow in
       out_sessions o ≠ sessions →
       ∃ claims session,
         authenticateToken jwt_verify authorization = Sent claims ∧
         user_role (claim_user claims) = "faculty" ∧
         out_sessions o = sessions ++ [session] ∧
         professorId session = user_id (claim_user claims) ∧
         out_response o = json (BSession session (qrCode session))) ∧
    (∀ sessionId now,
       let o := route_sessions_end jwt_verify sessions authorization sessionId now in
       out_sessions o ≠ sessions →
       ∃ claims i s,
         authenticateToken jwt_verify authorization = Sent claims ∧
         sessions !! i = Some s ∧ sessionId = Some (session_id s) ∧
         professorId s = user_id (claim_user claims) ∧
         out_sessions o = <[i := set_ended s now]> sessions).
Proof.
  intros jwt_verify toDataURL sessions authorization. split.
  - intros cls dateNow rnd startNow o Hchanged. subst o.
    unfold route_sessions_start, guarded in *.
    destruct (authenticateToken jwt_verify authorization) as [code error|claims];
      [done|].
    unfold sessions_start in *.
    case_bool_decide as Hrole; [done|].
    destruct (toDataURL _) as [err|qr]; [done|]. simpl.
    eexists claims, _. split_and!; [done| |done..].
    by destruct (decide (user_role (claim_user claims) = "faculty")).
  - intros sessionId now o Hchanged. subst o.
    unfold route_sessions_end, guarded in *.
    destruct (authenticateToken jwt_verify authorization) as [code error|claims];
      [done|].
    unfold sessions_end in *.
    destruct sessionId as [n|]; [|done]. simpl in *.
    destruct (list_find _ sessions) as [[i s]|] eqn:Hfind; [|done].
    case_bool_decide as Howner; [done|].
    apply list_find_Some in Hfind as (Hi & <- & _).
    exists claims, i, s. split_and!; [done..| |done].
    by destruct (decide (professorId s = user_id (claim_user claims))).
Qed.

Lemma registry_written_only_by_verified_owner_witness :
  let o := route_sessions_start sample_verify sample_codec [] (Some "Bearer jwt.3")
             (Some "DSA") 1700000000000 "0.4fzyo82mvyr" 1700000000005 in
  ∃ claims session,
    authenticateToken sample_verify (Some "Bearer jwt.3") = Sent claims ∧
    user_role (claim_user claims) = "faculty" ∧
    out_sessions o = [] ++ [session] ∧
    professorId session = user_id (claim_user claims) ∧
    out_response o = json (BSession session (qrCode session)).
Proof.
  apply (proj1 (registry_written_only_by_verified_owner sample_verify sample_codec []
                  (Some "Bearer jwt.3"))).
  vm_compute. discriminate.
Defined.

(** ** Logging in *)

(** What a successful login says about the accounts. *)
Lemma login_sent bcrypt_compare jwt_sign users username password role token claims :
  auth_login bcrypt_compare jwt_sign users username password role = Sent (token, claims) →
  ∃ i a,
    list_find (λ u, account_username u = username ∧ account_role u = role) users
      = Some (i, a) ∧
    bcrypt_compare password (account_password a) = inr true ∧
    claims = claims_of a ∧ token = jwt_sign claims.
Proof.
  unfold auth_login. intros Hsent.
  destruct (list_find _ users) as [[i a]|] eqn:Hfind; [|done].
  destruct (bcrypt_compare _ _) as [message|[|]] eqn:Hcmp; [done| |done].
  injection Hsent as <- <-. by exists i, a.
Qed.

(** X4. Login succeeds only for the first account with exactly the given
    username and role, and only when bcrypt accepts the password against that
    account's hash; the token signs that account's six fields, so its role
    and username are the ones asked for.  An unknown username/role pair and
    a wrong password get the same answer, 401 'Invalid credentials'. *)
Theorem login_outcomes :
  ∀ bcrypt_compare jwt_sign users username password role,
    let r := auth_login bcrypt_compare jwt_sign users username password role in
    (∀ token claims,
       r = Sent (token, claims) →
       token = jwt_sign claims ∧
       claim_username claims = username ∧
       user_role (claim_user claims) = role ∧
       ∃ i a, users !! i = Some a ∧ claims = claims_of a ∧
         bcrypt_compare password (account_password a) = inr true ∧
         ∀ j b, users !! j = Some b → (j < i)%nat →
           ¬ (account_username b = username ∧ account_role b = role)) ∧
    ((∀ a, a ∈ users → account_username a = username → account_role a ≠ role) →
     r = Refused 401 "Invalid credentials") ∧
    (∀ i a,
       list_find (λ u, account_username u = username ∧ account_role u = role) users
         = Some (i, a) →
       bcrypt_compare password (account_password a) = inr false →
       r = Refused 401 "Invalid credentials").
Proof.
  intros bcrypt_compare jwt_sign users username password role r. subst r.
  unfold auth_login. split_and!.
  - intros token claims Hsent.
    fold (auth_login bcrypt_compare jwt_sign users username password role) in Hsent.
    apply login_sent in Hsent as (i & a & Hfind & Hcmp & -> & ->).
    apply list_find_Some in Hfind as (Hi & [Hname Hrole] & Hleast).
    split_and!; [done..|]. by exists i, a.
  - intros Hnone.
    rewrite (proj2 (list_find_None _ users)); [done|].
    apply Forall_forall. intros a Ha [Hname Hrole]. by apply (Hnone a Ha).
  - intros i a -> Hcmp. by rewrite Hcmp.
Qed.

Lemma login_outcomes_witness :
  let users := demoUsers "$2a$10$hash" in
  (∃ i a, users !! i = Some a ∧ account_id a = "3" ∧
     sample_compare "password123" (account_password a) = inr true) ∧
  auth_login sample_compare sample_sign users "faculty" "password123" "principal" =
    Refused 401 "Invalid credentials" ∧
  auth_login sample_compare sample_sign users "faculty" "letmein" "faculty" =
    Refused 401 "Invalid credentials".
Proof.
  intros users. split; [|split].
  - destruct (proj1 (login_outcomes sample_compare sample_sign users
                       "faculty" "password123" "faculty") _ _ eq_refl)
      as (_ & _ & _ & i & a & Hi & Hclaims & Hcmp & _).
    exists i, a. split_and!; [done| |done].
    by injection Hclaims as _ <- _.
  - apply (proj1 (proj2 (login_outcomes sample_compare sample_sign users
                           "faculty" "password123" "principal"))).
    apply (proj1 (Forall_forall
             (λ a, account_username a = "faculty" → account_role a ≠ "principal") users)).
    repeat constructor; simpl; intros Hname Hrole;
      first [discriminate Hname | discriminate Hrole].
  - eapply (proj2 (proj2 (login_outcomes sample_compare sample_sign users
                            "faculty" "letmein" "faculty"))); reflexivity.
Defined.

(** X5. The token of a successful faculty login, sent as 'Bearer <token>',
    starts a session: when the token library gives the signed payload back
    and the QR codec succeeds, the start route appends an active session
    whose professor is the id of the account that logged in. *)
Theorem login_token_starts_session :
  ∀ bcrypt_compare jwt_sign jwt_verify toDataURL users username password
    token claims sessions reqClassName dateNow random36 startNow qr,
    auth_login bcrypt_compare jwt_sign users username password "faculty"
      = Sent (token, claims) →
    jwt_verify token = Some claims →
    space_free token → token ≠ "" →
    toDataURL (generateSessionCode dateNow random36) = inr qr →
    ∃ a session,
      a ∈ users ∧ account_username a = username ∧
      out_sessions (route_sessions_start jwt_verify toDataURL sessions
                      (Some ("Bearer " +:+ token)) reqClassName dateNow random36
                      startNow)
        = sessions ++ [session] ∧
      professorId session = account_id a ∧
      professorName session = account_name a ∧
      isActive session = true ∧ attendees session = [] ∧
      session_id session = Z.of_nat (length sessions) + 1.
Proof.
  intros bcrypt_compare jwt_sign jwt_verify toDataURL users username password
    token claims sessions cls dateNow rnd startNow qr Hlogin Hverify Hfree Hne Hqr.
  apply login_sent in Hlogin as (i & a & Hfind & _ & -> & _).
  apply list_find_Some in Hfind as (Hi & [Hname Hrole] & _).
  unfold route_sessions_start, guarded.
  rewrite bearer_header by done.
  rewrite Hverify. unfold sessions_start.
  rewrite bool_decide_false by (by intros []). rewrite Hqr. simpl.
  eexists a, _. split_and!; [by eapply list_elem_of_lookup_2|done|done..].
Qed.

Lemma login_token_starts_session_witness :
  ∃ a session,
    a ∈ demoUsers "$2a$10$hash" ∧ account_username a = "faculty" ∧
    out_sessions (route_sessions_start sample_verify sample_codec []
                    (Some ("Bearer " +:+ "jwt.3")) None 1700000000000 "0.4fzyo82mvyr"
                    1700000000005)
      = [] ++ [session] ∧
    professorId session = account_id a ∧
    professorName session = account_name a ∧
    isActive session = true ∧ attendees session = [] ∧
    session_id session = Z.of_nat (length (@nil Session)) + 1.
Proof.
  eapply (login_token_starts_session sample_compare sample_sign sample_verify
            sample_codec (demoUsers "$2a$10$hash") "faculty" "password123" "jwt.3").
  - reflexivity.
  - reflexivity.
  - simpl. repeat split; discriminate.
  - discriminate.
  - reflexivity.
Defined.

(** ** How the registry evolves *)

Section Lifecycle.

Variable toDataURL : string → string + string.

(** What one request does to a session that is already in the registry. *)
Lemma handle_session_step sessions r j s :
  sessions !! j = Some s →
  ∃ s', out_sessions (handle toDataURL sessions r) !! j = Some s' ∧
    (s' = s ∨
     (isActive s = true ∧ ∃ record, s' = set_attendees s (attendees s ++ [record])) ∨
     (∃ now, s' = set_ended s now)).
Proof.
  intros Hj.
  destruct r as [user cls dateNow rnd startNow|code sid name now|user n now]; simpl.
  - exists s. split; [|by left]. unfold sessions_start.
    case_bool_decide; [done|]. destruct (toDataURL _) as [err|qr]; [done|]. simpl.
    by apply lookup_app_l_Some.
  - destruct (mark_cases sessions code sid name now)
      as [(-> & _)|(i & s0 & Hfind & _ & ->)]; [exists s; by split; [|left]|].
    simpl. apply list_find_Some in Hfind as (Hi & [_ Hactive] & _).
    destruct (decide (i = j)) as [->|Hne].
    + assert (s0 = s) as -> by congruence.
      eexists. split; [apply list_lookup_insert_eq; by eapply lookup_lt_Some|].
      right; left. split; [done|]. by eexists.
    + exists s. rewrite list_lookup_insert_ne by done. by split; [|left].
  - unfold sessions_end.
    destruct (n ≫= _) as [[i s0]|] eqn:Hfind; [|exists s; by split; [|left]].
    case_bool_decide; [exists s; by split; [|left]|]. simpl.
    destruct n as [n|]; [|done]. simpl in Hfind.
    apply list_find_Some in Hfind as (Hi & _ & _).
    destruct (decide (i = j)) as [->|Hne].
    + assert (s0 = s) as -> by congruence.
      exists (set_ended s now).
      split; [apply list_lookup_insert_eq; by eapply lookup_lt_Some|].
      right; right. by exists now.
    + exists s. rewrite list_lookup_insert_ne by done. by split; [|left].
Qed.

(** A request adds at most one session, at the end, and that session is
    active, has no end time and no attendees. *)
Lemma handle_new_session sessions r j s' :
  out_sessions (handle toDataURL sessions r) !! j = Some s' →
  (length sessions ≤ j)%nat →
  j = length sessions ∧ isActive s' = true ∧ endTime s' = None ∧ attendees s' = [].
Proof.
  intros Hj Hlen.
  destruct r as [user cls dateNow rnd startNow|code sid name now|user n now];
    simpl in Hj.
  - unfold sessions_start in Hj.
    case_bool_decide; [by apply lookup_lt_Some in Hj; simpl in Hj; lia|].
    destruct (toDataURL _) as [err|qr]; [by apply lookup_lt_Some in Hj; simpl in Hj; lia|].
    simpl in Hj. apply lookup_app_Some in Hj as [Hj|[_ Hj]].
    + apply lookup_lt_Some in Hj. lia.
    + apply list_lookup_singleton_Some in Hj as [Hj <-]. simpl. split; [lia|done].
  - apply lookup_lt_Some in Hj.
    destruct (mark_cases sessions code sid name now)
      as [(Heq & _)|(i & s0 & _ & _ & Heq)]; rewrite Heq in Hj; simpl in Hj.
    + lia.
    + rewrite length_insert in Hj. lia.
  - apply lookup_lt_Some in Hj. unfold sessions_end in Hj.
    destruct (n ≫= _) as [[i s0]|]; [|simpl in Hj; lia].
    case_bool_decide; simpl in Hj; [lia|]. rewrite length_insert in Hj. lia.
Qed.

(** The attendance records grow by exactly the events emitted. *)
Lemma total_records_app l1 l2 :
  total_records (l1 ++ l2) = (total_records l1 + total_records l2)%nat.
Proof.
  unfold total_records. induction l1 as [|s l1 IH]; simpl; [done|].
  rewrite IH. lia.
Qed.

Lemma total_records_insert sessions i s record :
  sessions !! i = Some s →
  total_records (<[i := set_attendees s (attendees s ++ [record])]> sessions) =
  S (total_records sessions).
Proof.
  intros Hi.
  rewrite <- (take_drop_middle sessions i s Hi) at 2.
  rewrite insert_take_drop by by eapply lookup_lt_Some.
  rewrite !total_records_app.
  change (total_records (?x :: ?l)) with (length (attendees x) + total_records l)%nat.
  simpl. rewrite length_app. simpl. lia.
Qed.

Lemma total_records_ended sessions i s now :
  sessions !! i = Some s →
  total_records (<[i := set_ended s now]> sessions) = total_records sessions.
Proof.
  intros Hi.
  rewrite <- (take_drop_middle sessions i s Hi) at 2.
  rewrite insert_take_drop by by eapply lookup_lt_Some.
  rewrite !total_records_app.
  by change (total_records (?x :: ?l)) with (length (attendees x) + total_records l)%nat.
Qed.

Lemma handle_records sessions r :
  total_records (out_sessions (handle toDataURL sessions r)) =
  (total_records sessions + length (out_events (handle toDataURL sessions r)))%nat.
Proof.
  destruct r as [user cls dateNow rnd startNow|code sid name now|user n now]; simpl.
  - unfold sessions_start. case_bool_decide; [simpl; lia|].
    destruct (toDataURL _) as [err|qr]; simpl; [lia|].
    rewrite total_records_app. unfold total_records at 2. simpl. lia.
  - destruct (mark_cases sessions code sid name now)
      as [(-> & -> & _)|(i & s & Hfind & _ & ->)]; simpl; [lia|].
    apply list_find_Some in Hfind as (Hi & _ & _).
    rewrite total_records_insert by done. lia.
  - unfold sessions_end.
    destruct (n ≫= _) as [[i s]|] eqn:Hfind; [|simpl; lia].
    case_bool_decide; simpl; [lia|].
    destruct n as [n|]; [|done]. simpl in Hfind.
    apply list_find_Some in Hfind as (Hi & _ & _).
    rewrite total_records_ended by done. lia.
Qed.

End Lifecycle.

(** X6. No sequence of start, mark and end requests removes or moves a
    session or rewrites its id, code, professor, class name, QR image or
    start time, and its earlier attendees stay, in order, at the front of
    its list. *)
Theorem session_identity_is_permanent :
  ∀ toDataURL rs sessions j s,
    sessions !! j = Some s →
    ∃ s', run toDataURL sessions rs !! j = Some s' ∧
      session_id s' = session_id s ∧ sessionCode s' = sessionCode s ∧
      professorId s' = professorId s ∧ professorName s' = professorName s ∧
      className s' = className s ∧ qrCode s' = qrCode s ∧
      startTime s' = startTime s ∧
      attendees s `prefix_of` attendees s'.
Proof.
  intros toDataURL rs. induction rs as [|r rs IH]; intros sessions j s Hj; simpl.
  - exists s. by split_and!.
  - destruct (handle_session_step toDataURL sessions r j s Hj) as (s1 & Hj1 & Hstep).
    destruct (IH _ j s1 Hj1) as (s' & Hj' & Hid & Hcode & Hp & Hpn & Hcls & Hqr & Hst & Hpre).
    exists s'. split; [done|].
    destruct Hstep as [->|[(_ & record & ->)|(now & ->)]]; simpl in *.
    + by split_and!.
    + split_and!; [done..|]. etrans; [|exact Hpre]. by apply prefix_app_r.
    + by split_and!.
Qed.

Lemma session_identity_is_permanent_witness :
  let sessions := run sample_codec []
    [ReqStart dr_faculty None 1700000000000 "0.4fzyo82mvyr" 1700000000005] in
  let later := run sample_codec sessions
    [ReqMark "ATT-1700000000000-4fzyo82m" "CS001" None 1700000001000;
     ReqEnd dr_faculty (Some 1) 1700000003000;
     ReqStart dr_faculty (Some "DSA") 1700000004000 "0.9zzz" 1700000004001] in
  ∃ s', later !! 0%nat = Some s' ∧
    session_id s' = 1 ∧ sessionCode s' = "ATT-1700000000000-4fzyo82m".
Proof.
  intros sessions later.
  eassert (sessions !! 0%nat = Some _) as Hs by reflexivity.
  destruct (session_identity_is_permanent sample_codec
              [ReqMark "ATT-1700000000000-4fzyo82m" "CS001" None 1700000001000;
               ReqEnd dr_faculty (Some 1) 1700000003000;
               ReqStart dr_faculty (Some "DSA") 1700000004000 "0.9zzz" 1700000004001]
              sessions 0%nat _ Hs) as (s' & Hs' & Hid & Hcode & _).
  exists s'. by split_and!.
Defined.

(** X7. An ended session is closed for good: whatever requests follow, it
    stays inactive and its attendee list stays exactly as it was. *)
Theorem ended_session_is_frozen :
  ∀ toDataURL rs sessions j s,
    sessions !! j = Some s →
    isActive s = false →
    ∃ s', run toDataURL sessions rs !! j = Some s' ∧
      isActive s' = false ∧ attendees s' = attendees s.
Proof.
  intros toDataURL rs. induction rs as [|r rs IH]; intros sessions j s Hj Hoff; simpl.
  - by exists s.
  - destruct (handle_session_step toDataURL sessions r j s Hj) as (s1 & Hj1 & Hstep).
    assert (isActive s1 = false ∧ attendees s1 = attendees s) as [Hoff1 Hatt1].
    { destruct Hstep as [->|[(Hon & _)|(now & ->)]]; [done| |done]. congruence. }
    destruct (IH _ j s1 Hj1 Hoff1) as (s' & Hj' & Hoff' & Hatt').
    exists s'. split_and!; [done..|]. congruence.
Qed.

Lemma ended_session_is_frozen_witness :
  let sessions := run sample_codec []
    [ReqStart dr_faculty None 1700000000000 "0.4fzyo82mvyr" 1700000000005;
     ReqMark "ATT-1700000000000-4fzyo82m" "CS001" None 1700000001000;
     ReqEnd dr_faculty (Some 1) 1700000003000] in
  let later := run sample_codec sessions
    [ReqMark "ATT-1700000000000-4fzyo82m" "CS002" None 1700000004000;
     ReqEnd dr_faculty (Some 1) 1700000005000] in
  ∃ s', later !! 0%nat = Some s' ∧ isActive s' = false ∧
    studentId <$> attendees s' = ["CS001"].
Proof.
  intros sessions later.
  eassert (sessions !! 0%nat = Some _) as Hs by reflexivity.
  destruct (ended_session_is_frozen sample_codec
              [ReqMark "ATT-1700000000000-4fzyo82m" "CS002" None 1700000004000;
               ReqEnd dr_faculty (Some 1) 1700000005000]
              sessions 0%nat _ Hs eq_refl) as (s' & Hs' & Hoff & Hatt).
  exists s'. split_and!; [done..|]. by rewrite Hatt.
Defined.

(** X8. In every registry the server reaches from the empty one, the
    session at array position i (from 0) has id i + 1: ids are pairwise
    distinct, and an id names a session exactly when it lies between 1 and
    the number of sessions. *)
Theorem session_ids_count_from_one :
  ∀ toDataURL rs,
    let sessions := run toDataURL [] rs in
    (∀ i s, sessions !! i = Some s → session_id s = Z.of_nat i + 1) ∧
    NoDup (session_id <$> sessions) ∧
    (∀ n, (∃ s, s ∈ sessions ∧ session_id s = n) ↔
          1 ≤ n ≤ Z.of_nat (length sessions)).
Proof.
  intros toDataURL rs sessions.
  assert (ids_sequential sessions) as Hseq by apply reachable_ids_sequential.
  split_and!; [exact Hseq| |].
  - apply NoDup_alt. intros i j n Hi Hj.
    apply list_lookup_fmap_Some in Hi as (si & -> & Hi).
    apply list_lookup_fmap_Some in Hj as (sj & Heq & Hj).
    rewrite (Hseq _ _ Hi), (Hseq _ _ Hj) in Heq. lia.
  - intros n. split.
    + intros (s & [i Hi]%list_elem_of_lookup & <-).
      rewrite (Hseq _ _ Hi). apply lookup_lt_Some in Hi. lia.
    + intros Hn.
      destruct (lookup_lt_is_Some_2 sessions (Z.to_nat (n - 1))) as [s Hs]; [lia|].
      exists s. split; [by eapply list_elem_of_lookup_2|].
      rewrite (Hseq _ _ Hs). lia.
Qed.

Lemma session_ids_count_from_one_witness :
  let rs := [ReqStart dr_faculty None 1700000000000 "0.4fzyo82mvyr" 1700000000005;
             ReqStart alice None 1700000001000 "0.zzz" 1700000001001;
             ReqStart dr_faculty (Some "DSA") 1700000004000 "0.9zzz" 1700000004001] in
  ∃ s, run sample_codec [] rs !! 1%nat = Some s ∧ session_id s = 2 ∧
       className s = "DSA".
Proof.
  intros rs.
  eassert (run sample_codec [] rs !! 1%nat = Some _) as Hs by reflexivity.
  eexists. split; [exact Hs|]. split; [|reflexivity].
  exact (proj1 (session_ids_count_from_one sample_codec rs) 1%nat _ Hs).
Defined.

(** X9. In every registry the server reaches from the empty one a session
    is active exactly when it has no end time. *)
Theorem active_iff_no_end_time :
  ∀ toDataURL rs s,
    s ∈ run toDataURL [] rs →
    (isActive s = true ↔ endTime s = None).
Proof.
  intros toDataURL rs.
  assert (∀ sessions,
            Forall (λ s, isActive s = true ↔ endTime s = None) sessions →
            Forall (λ s, isActive s = true ↔ endTime s = None)
                   (run toDataURL sessions rs)) as Hrun.
  { induction rs as [|r rs IH]; intros sessions Hall; simpl; [done|].
    apply IH. apply Forall_lookup. intros j s' Hj'.
    destruct (decide (j < length sessions)%nat) as [Hlt|Hge].
    - destruct (lookup_lt_is_Some_2 sessions j Hlt) as [s Hj].
      destruct (handle_session_step toDataURL sessions r j s Hj) as (s1 & Hj1 & Hstep).
      assert (s1 = s') as -> by congruence.
      pose proof (Forall_lookup_1 _ _ _ _ Hall Hj) as Hs.
      destruct Hstep as [->|[(_ & record & ->)|(now & ->)]]; [done|done|].
      simpl. split; discriminate.
    - destruct (handle_new_session toDataURL sessions r j s' Hj') as (_ & Hon & Hend & _);
        [lia|]. by rewrite Hon, Hend. }
  intros s Hs.
  by apply (proj1 (Forall_forall _ _) (Hrun [] (Forall_nil_2 _))).
Qed.

Lemma active_iff_no_end_time_witness :
  let sessions := run sample_codec []
    [ReqStart dr_faculty None 1700000000000 "0.4fzyo82mvyr" 1700000000005;
     ReqEnd dr_faculty (Some 1) 1700000003000] in
  ∃ s, sessions !! 0%nat = Some s ∧ (isActive s = true ↔ endTime s = None).
Proof.
  intros sessions.
  eassert (sessions !! 0%nat = Some _) as Hs by reflexivity.
  eexists. split; [exact Hs|].
  apply (active_iff_no_end_time sample_codec
           [ReqStart dr_faculty None 1700000000000 "0.4fzyo82mvyr" 1700000000005;
            ReqEnd dr_faculty (Some 1) 1700000003000]).
  by eapply list_elem_of_lookup_2.
Defined.

(** X10. Starting from the empty registry, the number of attendanceUpdate
    events emitted so far equals the number of attendance records held by
    all sessions together. *)
Theorem one_event_per_stored_record :
  ∀ toDataURL rs,
    length (broadcasts toDataURL [] rs) = total_records (run toDataURL [] rs).
Proof.
  intros toDataURL rs.
  assert (∀ sessions,
            total_records (run toDataURL sessions rs) =
            (total_records sessions + length (broadcasts toDataURL sessions rs))%nat)
    as Hrun.
  { induction rs as [|r rs IH]; intros sessions; simpl; [lia|].
    rewrite IH, handle_records, length_app. lia. }
  rewrite Hrun. unfold total_records. simpl. lia.
Qed.

(** ** Which session a mark reaches *)

(** X11. A mark writes to the first active session carrying the code and
    to nothing else: a session with another code, an inactive session, and
    an active session that stands behind an earlier active session with the
    same code all come out exactly as they were. *)
Theorem mark_reaches_first_open_session_only :
  ∀ sessions code sid name now j s,
    sessions !! j = Some s →
    (sessionCode s ≠ code ∨ isActive s = false ∨
     ∃ i s0, (i < j)%nat ∧ sessions !! i = Some s0 ∧
             sessionCode s0 = code ∧ isActive s0 = true) →
    out_sessions (attendance_mark sessions code sid name now) !! j = Some s.
Proof.
  intros sessions code sid name now j s Hj Hwhy.
  destruct (mark_cases sessions code sid name now)
    as [(-> & _)|(i & s1 & Hfind & _ & ->)]; [done|]. simpl.
  apply list_find_Some in Hfind as (Hi & [Hcode Hactive] & Hleast).
  rewrite list_lookup_insert_ne; [done|]. intros ->.
  assert (s1 = s) as -> by congruence.
  destruct Hwhy as [Hne|[Hoff|(i & s0 & Hlt & Hi0 & Hcode0 & Hactive0)]].
  - done.
  - congruence.
  - by apply (Hleast i s0 Hi0 Hlt).
Qed.

Lemma mark_reaches_first_open_session_only_witness :
  let sessions := run sample_codec []
    [ReqStart dr_faculty None 1700000000000 "0.4fzyo82mvyr" 1700000000000;
     ReqStart dr_faculty (Some "DSA") 1700000000000 "0.4fzyo82mvyr" 1700000000001] in
  ∃ s, sessions !! 1%nat = Some s ∧
    out_sessions (attendance_mark sessions "ATT-1700000000000-4fzyo82m" "CS001" None
                                  1700000001000) !! 1%nat = Some s.
Proof.
  intros sessions.
  eassert (sessions !! 1%nat = Some _) as Hs by reflexivity.
  eexists. split; [exact Hs|].
  apply (mark_reaches_first_open_session_only sessions _ "CS001" None 1700000001000
           1%nat _ Hs).
  right; right. eexists 0%nat, _. split; [lia|]. split; [reflexivity|]. by split.
Defined.

(** X12. A session just started takes the marks for its code: when no
    session already in the registry is active with the new code, a mark
    with the code returned by start puts its record, as the only one, into
    the new session and announces one attendee; the class name of the
    session is the one in the request, or 'Computer Science 101' when the
    request has none or an empty one. *)
Theorem start_then_mark :
  ∀ toDataURL sessions user reqClassName dateNow random36 startNow qr sid name now,
    let code := generateSessionCode dateNow random36 in
    let started :=
      sessions_start toDataURL sessions user reqClassName dateNow random36 startNow in
    let o := attendance_mark (out_sessions started) code sid name now in
    user_role user = "faculty" →
    toDataURL code = inr qr →
    (∀ s, s ∈ sessions → sessionCode s = code → isActive s = false) →
    ∃ session record,
      out_response started = json (BSession session qr) ∧
      sessionCode session = code ∧
      className session = js_or reqClassName "Computer Science 101" ∧
      out_sessions started = sessions ++ [session] ∧
      out_sessions o = sessions ++ [set_attendees session [record]] ∧
      studentId record = sid ∧
      out_events o =
        [ {| ev_sessionCode := code; ev_studentId := sid;
             ev_studentName := studentName record;
             ev_totalAttendees := 1; ev_timestamp := now |} ].
Proof.
  intros toDataURL sessions user cls dateNow rnd startNow qr sid name now
    code started o Hrole Hqr Hfresh.
  subst o started. unfold sessions_start.
  rewrite bool_decide_false by (by intros []). fold code. rewrite Hqr. simpl.
  set (session := {| session_id := Z.of_nat (length sessions) + 1; sessionCode := code;
                     professorId := user_id user; professorName := user_name user;
                     className := js_or cls "Computer Science 101"; qrCode := qr;
                     isActive := true; startTime := startNow; endTime := None;
                     attendees := [] |}).
  assert (list_find (λ s, sessionCode s = code ∧ isActive s = true)
                    (sessions ++ [session]) = Some (length sessions, session)) as Hfind.
  { rewrite list_find_app_r by by apply find_open_None.
    simpl. by rewrite decide_True. }
  rewrite (mark_fresh _ _ _ name now _ _ Hfind) by (simpl; apply not_elem_of_nil).
  simpl.
  exists session, {| studentId := sid; studentName := js_or name ("Student " +:+ sid);
                     timestamp := now; method := "qr" |}.
  split_and!; [reflexivity..| |reflexivity|reflexivity].
  replace (length sessions) with (length sessions + 0)%nat by lia.
  by rewrite insert_app_r.
Qed.

Lemma start_then_mark_witness :
  let code := generateSessionCode 1700000000000 "0.4fzyo82mvyr" in
  let started :=
    sessions_start sample_codec [] dr_faculty (Some "") 1700000000000 "0.4fzyo82mvyr"
                   1700000000005 in
  let o := attendance_mark (out_sessions started) code "CS001" None 1700000001000 in
  ∃ session record,
    out_response started = json (BSession session ("data:image/png;base64," +:+ code)) ∧
    sessionCode session = code ∧
    className session = js_or (Some "") "Computer Science 101" ∧
    out_sessions started = [] ++ [session] ∧
    out_sessions o = [] ++ [set_attendees session [record]] ∧
    studentId record = "CS001" ∧
    out_events o =
      [ {| ev_sessionCode := code; ev_studentId := "CS001";
           ev_studentName := studentName record;
           ev_totalAttendees := 1; ev_timestamp := 1700000001000 |} ].
Proof.
  apply (start_then_mark sample_codec [] dr_faculty (Some "") 1700000000000
           "0.4fzyo82mvyr" 1700000000005 _ "CS001" None 1700000001000).
  - reflexivity.
  - reflexivity.
  - by intros s Hs%elem_of_nil.
Defined.

(** ** The list of active sessions *)

Lemma filter_all {A} (P : A → Prop) `{∀ x, Decision (P x)} (l : list A) :
  (∀ x, x ∈ l → P x) → filter P l = l.
Proof.
  induction l as [|x l IH]; intros Hall; [done|].
  rewrite filter_cons_True by (apply Hall; by left).
  f_equal. apply IH. intros y Hy. apply Hall. by right.
Qed.

Lemma filter_filter_keep {A} (P Q : A → Prop)
    `{∀ x, Decision (P x)} `{∀ x, Decision (Q x)} (l : list A) :
  (∀ x, x ∈ l → Q x) → filter Q (filter P l) = filter P l.
Proof.
  intros Hl. apply filter_all. intros x [_ Hx]%list_elem_of_filter. by apply Hl.
Qed.

(** Replacing an element by one with the same image and the same standing
    under the filter keeps the images of the filtered list. *)
Lemma fmap_filter_insert {A B} (f : A → B) (P : A → Prop) `{∀ x, Decision (P x)}
    (l : list A) (i : nat) (x x' : A) :
  l !! i = Some x → (P x' ↔ P x) → f x' = f x →
  f <$> filter P (<[i := x']> l) = f <$> filter P l.
Proof.
  revert i. induction l as [|y l IH]; intros [|i] Hi HP Hf; simplify_eq/=.
  - rewrite !filter_cons. destruct (decide (P x')), (decide (P x)); csimpl;
      [by rewrite Hf | tauto | tauto | done].
  - rewrite !filter_cons. destruct (decide (P y)); csimpl; [f_equal|]; by apply IH.
Qed.

(** X13. For a faculty caller the list of active sessions follows the
    requests: a start by the caller puts the new session at the end of the
    caller's list and leaves the list of every caller with another id as it
    was; a mark changes neither which sessions any caller's list holds nor
    their order. *)
Theorem active_list_after_start_and_mark :
  (∀ toDataURL sessions user reqClassName dateNow random36 startNow qr,
     let started :=
       sessions_start toDataURL sessions user reqClassName dateNow random36 startNow in
     user_role user = "faculty" →
     toDataURL (generateSessionCode dateNow random36) = inr qr →
     ∃ before session,
       sessions_active sessions user = Sent before ∧
       out_sessions started = sessions ++ [session] ∧
       sessions_active (out_sessions started) user = Sent (before ++ [session]) ∧
       ∀ caller, user_id caller ≠ user_id user →
         sessions_active (out_sessions started) caller = sessions_active sessions caller) ∧
  (∀ sessions code sid name now caller,
     user_role caller = "faculty" →
     ∃ before after,
       sessions_active sessions caller = Sent before ∧
       sessions_active (out_sessions (attendance_mark sessions code sid name now)) caller
         = Sent after ∧
       session_id <$> after = session_id <$> before).
Proof.
  split.
  - intros toDataURL sessions user cls dateNow rnd startNow qr started Hrole Hqr.
    subst started. unfold sessions_start, sessions_active.
    rewrite !bool_decide_false by (by intros []). rewrite Hqr. simpl.
    eexists _, _. split_and!; [done | done | |].
    + rewrite filter_app. f_equal. by rewrite filter_cons_True.
    + intros caller Hother. case_bool_decide; [done|]. f_equal.
      rewrite filter_app, filter_cons_False, filter_nil, app_nil_r; [done|].
      simpl. intros [Heq _]. by apply Hother.
  - intros sessions code sid name now caller Hrole. unfold sessions_active.
    rewrite !bool_decide_false by (by intros []).
    eexists _, _. split_and!; [done | done |].
    destruct (mark_cases sessions code sid name now)
      as [(-> & _)|(i & s & Hfind & _ & ->)]; [done|]. simpl.
    apply list_find_Some in Hfind as (Hi & _ & _).
    by apply (fmap_filter_insert session_id _ sessions i s).
Qed.

Lemma active_list_after_start_and_mark_witness :
  let started :=
    sessions_start sample_codec [] dr_faculty None 1700000000000 "0.4fzyo82mvyr"
                   1700000000005 in
  (∃ before session,
     sessions_active [] dr_faculty = Sent before ∧
     out_sessions started = [] ++ [session] ∧
     sessions_active (out_sessions started) dr_faculty = Sent (before ++ [session]) ∧
     ∀ caller, user_id caller ≠ user_id dr_faculty →
       sessions_active (out_sessions started) caller = sessions_active [] caller) ∧
  (∃ before after,
     sessions_active (out_sessions started) dr_faculty = Sent before ∧
     sessions_active
       (out_sessions (attendance_mark (out_sessions started)
                        "ATT-1700000000000-4fzyo82m" "CS001" None 1700000001000))
       dr_faculty = Sent after ∧
     session_id <$> after = session_id <$> before).
Proof.
  intros started. split.
  - by apply (proj1 active_list_after_start_and_mark sample_codec [] dr_faculty None
                1700000000000 "0.4fzyo82mvyr" 1700000000005
                ("data:image/png;base64," +:+ "ATT-1700000000000-4fzyo82m")).
  - by apply (proj2 active_list_after_start_and_mark).
Defined.

(** X14. When its professor ends a session of a reachable registry, every
    faculty caller's list of active sessions becomes the old list without
    the session of that id; nothing else enters or leaves it, and the order
    is kept. *)
Theorem active_list_after_end :
  ∀ toDataURL rs user i s now caller,
    let sessions := run toDataURL [] rs in
    let o := sessions_end sessions user (Some (session_id s)) now in
    sessions !! i = Some s →
    professorId s = user_id user →
    user_role caller = "faculty" →
    ∃ before,
      sessions_active sessions caller = Sent before ∧
      sessions_active (out_sessions o) caller =
        Sent (filter (λ s', session_id s' ≠ session_id s) before).
Proof.
  intros toDataURL rs user i s now caller sessions o Hi Howner Hrole.
  assert (ids_sequential sessions) as Hseq by apply reachable_ids_sequential.
  assert (i < length sessions)%nat as Hlt by by eapply lookup_lt_Some.
  subst o. rewrite (end_by_owner sessions user _ now i s);
    [|by apply find_by_id|done].
  unfold sessions_active. rewrite !bool_decide_false by (by intros []). simpl.
  eexists. split; [done|]. f_equal.
  set (P := λ s' : Session, professorId s' = user_id caller ∧ isActive s' = true).
  set (Q := λ s' : Session, session_id s' ≠ session_id s).
  assert (∀ x, x ∈ take i sessions → Q x) as Hfront.
  { intros x [k Hk]%list_elem_of_lookup.
    apply lookup_take_Some in Hk as [Hk Hki].
    unfold Q. rewrite (Hseq _ _ Hk), (Hseq _ _ Hi). lia. }
  assert (∀ x, x ∈ drop (S i) sessions → Q x) as Hback.
  { intros x [k Hk]%list_elem_of_lookup.
    rewrite lookup_drop in Hk.
    unfold Q. rewrite (Hseq _ _ Hk), (Hseq _ _ Hi). lia. }
  rewrite insert_take_drop by done.
  rewrite <- (take_drop_middle sessions i s Hi) at 3.
  rewrite !filter_app, !(filter_cons P).
  rewrite (decide_False (P := P (set_ended s now))) by (by intros [_ ?]).
  destruct (decide (P s)).
  - rewrite (filter_cons_False Q s) by (unfold Q; by intros ?).
    by rewrite !(filter_filter_keep P Q).
  - by rewrite !(filter_filter_keep P Q).
Qed.

Lemma active_list_after_end_witness :
  let rs := [ReqStart dr_faculty None 1700000000000 "0.4fzyo82mvyr" 1700000000005;
             ReqStart dr_faculty (Some "DSA") 1700000004000 "0.9zzz" 1700000004001] in
  let sessions := run sample_codec [] rs in
  let o := sessions_end sessions dr_faculty (Some 1) 1700000005000 in
  ∃ before,
    sessions_active sessions dr_faculty = Sent before ∧
    sessions_active (out_sessions o) dr_faculty =
      Sent (filter (λ s', session_id s' ≠ 1) before).
Proof.
  intros rs sessions o.
  eassert (sessions !! 0%nat = Some _) as Hs by reflexivity.
  exact (active_list_after_end sample_codec rs dr_faculty 0%nat _ 1700000005000
           dr_faculty Hs eq_refl eq_refl).
Defined.

(** ** The analytics views *)

(** X15. Each analytics endpoint answers only callers of its own role,
    compared exactly, and 403 'Access denied' everyone else; so no caller
    gets data from two of the four endpoints. *)
Theorem analytics_answer_one_role_each :
  ∀ roster user,
    (user_role user ≠ "principal" → analytics_principal roster user = access_denied) ∧
    (user_role user ≠ "hod" → analytics_hod roster user = access_denied) ∧
    (user_role user ≠ "faculty" → analytics_faculty roster user = access_denied) ∧
    (user_role user ≠ "student" →
     analytics_student roster user = Refused 403 "Access denied") ∧
    (status (analytics_principal roster user) ≠ 403 → user_role user = "principal") ∧
    (status (analytics_hod roster user) ≠ 403 → user_role user = "hod") ∧
    (status (analytics_faculty roster user) ≠ 403 → user_role user = "faculty") ∧
    (∀ view, analytics_student roster user = Sent view → user_role user = "student").
Proof.
  intros roster user.
  unfold analytics_principal, analytics_hod, analytics_faculty, analytics_student.
  split_and!.
  - intros Hne. by rewrite bool_decide_true.
  - intros Hne. by rewrite bool_decide_true.
  - intros Hne. by rewrite bool_decide_true.
  - intros Hne. by rewrite bool_decide_true.
  - case_bool_decide as Hrole; [done|]. intros _.
    by destruct (decide (user_role user = "principal")).
  - case_bool_decide as Hrole; [done|]. intros _.
    by destruct (decide (user_role user = "hod")).
  - case_bool_decide as Hrole; [done|]. intros _.
    by destruct (decide (user_role user = "faculty")).
  - intros view. case_bool_decide as Hrole; [done|]. intros _.
    by destruct (decide (user_role user = "student")).
Qed.

Lemma analytics_answer_one_role_each_witness :
  analytics_principal students prof_hod = access_denied ∧
  analytics_faculty students prof_hod = access_denied ∧
  analytics_student students prof_hod = Refused 403 "Access denied" ∧
  user_role dr_principal = "principal".
Proof.
  destruct (analytics_answer_one_role_each students prof_hod)
    as (Hp & _ & Hf & Hs & _).
  destruct (analytics_answer_one_role_each students dr_principal)
    as (_ & _ & _ & _ & Hrole & _).
  split_and!.
  - apply Hp. discriminate.
  - apply Hf. discriminate.
  - apply Hs. discriminate.
  - apply Hrole. simpl. discriminate.
Defined.

(** X16. The department head's at-risk list holds exactly the students of
    the caller's department whose attendance is below 75, in roster order,
    each with its id, name and attendance; the status is 'Critical' below
    60, 'Warning' from 60 to 69 and 'Needs Counseling' from 70 to 74. *)
Theorem hod_at_risk_list :
  ∀ roster user,
    user_role user = "hod" →
    ∃ total avg risk,
      analytics_hod roster user =
        {| status := 200; body := BHod (user_department user) total avg risk |} ∧
      risk = at_risk_entry <$>
               filter (λ s, Some (department s) = user_department user ∧ attendance s < 75)
                      roster ∧
      (length risk ≤ total)%nat ∧
      ∀ e, e ∈ risk →
        (∃ s, s ∈ roster ∧ Some (department s) = user_department user ∧
              ar_id e = student_id s ∧ ar_name e = student_name s ∧
              ar_attendance e = attendance s) ∧
        ar_attendance e < 75 ∧
        (ar_status e = "Critical" ↔ ar_attendance e < 60) ∧
        (ar_status e = "Warning" ↔ 60 ≤ ar_attendance e < 70) ∧
        (ar_status e = "Needs Counseling" ↔ 70 ≤ ar_attendance e).
Proof.
  intros roster user Hrole. unfold analytics_hod.
  rewrite bool_decide_false by (by intros []).
  eexists _, _, _. split; [done|].
  unfold below_75, of_department.
  split_and!.
  - rewrite list_filter_filter. f_equal. apply list_filter_iff. intros s. tauto.
  - rewrite length_fmap. apply length_filter.
  - rewrite list_filter_filter.
    intros e (s & -> & [[Hlow Hdept] Hs]%list_elem_of_filter)%list_elem_of_fmap.
    split; [by exists s|]. unfold at_risk_entry. simpl.
    split; [done|].
    destruct (Z.ltb_spec (attendance s) 60); [split_and!; split; (done || lia)|].
    destruct (Z.ltb_spec (attendance s) 70); split_and!; split; (done || lia).
Qed.

Lemma hod_at_risk_list_witness :
  ∃ total avg risk,
    analytics_hod students prof_hod =
      {| status := 200; body := BHod (Some "CSE") total avg risk |} ∧
    (ar_id <$> risk) = ["CS002"; "CS004"] ∧
    (ar_status <$> risk) = ["Needs Counseling"; "Warning"].
Proof.
  destruct (hod_at_risk_list students prof_hod eq_refl)
    as (total & avg & risk & Hr & -> & _).
  eexists total, avg, _. split; [exact Hr|]. by vm_compute.
Defined.

Lemma of_department_filter roster user dept :
  user_department user = Some dept →
  of_department roster user = filter (λ s, department s = dept) roster.
Proof.
  intros Hdept. unfold of_department. apply list_filter_iff.
  intros s. rewrite Hdept. split; [by intros [= ->] | by intros ->].
Qed.

(** X17. The three views of one department agree: the department head, a
    faculty member of the department and the principal's entry for it report
    the same number of students and the same at-risk count, the head and
    the faculty member report the same average attendance, and so does the
    principal's entry when the department has a student; the faculty member
    is sent the students of that department and no others. *)
Theorem department_views_agree :
  ∀ roster dept head teacher,
    user_role head = "hod" → user_department head = Some dept →
    user_role teacher = "faculty" → user_department teacher = Some dept →
    ∃ total avg risk studs stats,
      analytics_hod roster head =
        {| status := 200; body := BHod (Some dept) total avg risk |} ∧
      analytics_faculty roster teacher =
        {| status := 200; body := BFaculty studs stats |} ∧
      studs = filter (λ s, department s = dept) roster ∧
      total = length studs ∧
      cs_totalStudents stats = total ∧
      da_totalStudents (dept_analytics roster dept) = total ∧
      cs_avgAttendance stats = avg ∧
      cs_atRiskCount stats = length risk ∧
      da_atRiskStudents (dept_analytics roster dept) = length risk ∧
      (total ≠ 0%nat → da_avgAttendance (dept_analytics roster dept) = avg).
Proof.
  intros roster dept head teacher Hhod Hhead Hfac Hteacher.
  unfold analytics_hod, analytics_faculty.
  rewrite !bool_decide_false by (by intros []).
  rewrite (of_department_filter roster head dept Hhead).
  rewrite (of_department_filter roster teacher dept Hteacher).
  rewrite Hhead. eexists _, _, _, _, _.
  split; [done|]. split; [done|]. simpl.
  split_and!; [done | done | done | done | done | | |].
  - by rewrite length_fmap.
  - by rewrite length_fmap.
  - intros Hsome. rewrite bool_decide_true; [done|]. lia.
Qed.

Lemma department_views_agree_witness :
  ∃ total avg risk studs stats,
    analytics_hod students prof_hod =
      {| status := 200; body := BHod (Some "CSE") total avg risk |} ∧
    analytics_faculty students dr_faculty =
      {| status := 200; body := BFaculty studs stats |} ∧
    total = 4%nat ∧ cs_avgAttendance stats = avg ∧
    da_avgAttendance (dept_analytics students "CSE") = avg.
Proof.
  destruct (department_views_agree students "CSE" prof_hod dr_faculty
              eq_refl eq_refl eq_refl eq_refl)
    as (total & avg & risk & studs & stats & Hh & Hf & -> & -> & _ & _ & Havg & _ & _ & Hp).
  eexists _, avg, risk, _, stats. split_and!; [exact Hh | exact Hf | done | done |].
  apply Hp. by vm_compute.
Defined.

(** X18. For a faculty caller whose department has at least one student,
    the two averages of the class statistics are integers within one half
    of the arithmetic means of the department's attendance and marks. *)
Theorem faculty_averages_are_rounded_means :
  ∀ roster user,
    user_role user = "faculty" →
    of_department roster user ≠ [] →
    ∃ studs stats a m,
      analytics_faculty roster user =
        {| status := 200; body := BFaculty studs stats |} ∧
      studs = of_department roster user ∧
      cs_avgAttendance stats = JsNum (inject_Z a) ∧
      cs_avgMarks stats = JsNum (inject_Z m) ∧
      let n := inject_Z (Z.of_nat (length studs)) in
      let mean_attendance := (inject_Z (foldr Z.add 0%Z (attendance <$> studs)) / n)%Q in
      let mean_marks := (inject_Z (foldr Z.add 0%Z (marks <$> studs)) / n)%Q in
      (mean_attendance - (1 # 2) < inject_Z a)%Q ∧
      (inject_Z a <= mean_attendance + (1 # 2))%Q ∧
      (mean_marks - (1 # 2) < inject_Z m)%Q ∧
      (inject_Z m <= mean_marks + (1 # 2))%Q.
Proof.
  intros roster user Hrole Hsome. unfold analytics_faculty.
  rewrite bool_decide_false by (by intros []).
  set (studs := of_department roster user) in *.
  assert (0 < Z.of_nat (length studs)) as Hn by (destruct studs; [done|simpl; lia]).
  eexists studs, _, _, _. split; [done|]. split; [done|]. simpl.
  rewrite !Math_round_div, !reduce_sum_foldr by done.
  split; [done|]. split; [done|].
  destruct (half_up_nearest (foldr Z.add 0 (attendance <$> studs)) _ Hn).
  destruct (half_up_nearest (foldr Z.add 0 (marks <$> studs)) _ Hn).
  by split_and!.
Qed.

Lemma faculty_averages_are_rounded_means_witness :
  ∃ studs stats,
    analytics_faculty students dr_faculty =
      {| status := 200; body := BFaculty studs stats |} ∧
    cs_avgAttendance stats = JsNum 79 ∧ cs_avgMarks stats = JsNum 77.
Proof.
  destruct (faculty_averages_are_rounded_means students dr_faculty eq_refl)
    as (studs & stats & a & m & Hr & _); [by vm_compute|].
  exists studs, stats. split; [exact Hr|].
  vm_compute in Hr. injection Hr as <- <-. by vm_compute.
Defined.

(** X19. A student gets their own roster entry, the first one whose id is
    the roll number of the token, with an attendance trend of five numbers
    that ends in the entry's attendance; when no entry has that id (or the
    token has no roll number) the answer is 404 'Student not found'. *)
Theorem student_view_is_own_entry :
  ∀ roster user,
    user_role user = "student" →
    ((∀ s, s ∈ roster → Some (student_id s) ≠ user_rollNo user) →
     analytics_student roster user = Refused 404 "Student not found") ∧
    (∀ i s,
       roster !! i = Some s → Some (student_id s) = user_rollNo user →
       (∀ j s', roster !! j = Some s' → (j < i)%nat →
                Some (student_id s') ≠ user_rollNo user) →
       ∃ view,
         analytics_student roster user = Sent view ∧
         sv_student view = s ∧
         length (sv_attendanceTrend view) = 5%nat ∧
         last (sv_attendanceTrend view) = Some (attendance s)) ∧
    (∀ view,
       analytics_student roster user = Sent view →
       sv_student view ∈ roster ∧
       Some (student_id (sv_student view)) = user_rollNo user).
Proof.
  intros roster user Hrole. unfold analytics_student.
  rewrite bool_decide_false by (by intros []).
  split_and!.
  - intros Hnone.
    rewrite (proj2 (list_find_None _ roster)); [done|].
    apply Forall_forall. intros s Hs. by apply Hnone.
  - intros i s Hi Hid Hleast.
    rewrite (proj2 (list_find_Some _ roster i s)) by done.
    by eexists.
  - intros view.
    destruct (list_find _ roster) as [[i s]|] eqn:Hfind; [|done].
    intros [= <-]. simpl.
    apply list_find_Some in Hfind as (Hi & Hid & _).
    split; [by eapply list_elem_of_lookup_2|done].
Qed.

Lemma student_view_is_own_entry_witness :
  let nobody :=
    {| user_id := "9"; user_role := "student"; user_name := "Nobody";
       user_department := None; user_rollNo := None |} in
  (∃ view,
     analytics_student students alice = Sent view ∧
     student_name (sv_student view) = "Alice Johnson" ∧
     last (sv_attendanceTrend view) = Some 94) ∧
  analytics_student students nobody = Refused 404 "Student not found".
Proof.
  intros nobody. split.
  - eassert (students !! 0%nat = Some _) as Hs by reflexivity.
    destruct (proj1 (proj2 (student_view_is_own_entry students alice eq_refl))
                0%nat _ Hs eq_refl) as (view & Hv & Hst & _ & Hlast).
    { intros j s' _ Hlt. lia. }
    exists view. split_and!; [done| |done]. by rewrite Hst.
  - apply (proj1 (student_view_is_own_entry students nobody eq_refl)).
    intros s _. discriminate.
Defined.

(** ** The shape of a session code *)

Lemma substring_length (n m : nat) (s : string) :
  (String.length (String.substring n m s) ≤ m)%nat.
Proof.
  revert n m. induction s as [|c s IH]; intros [|n] [|m]; simpl; try lia.
  - specialize (IH 0%nat m). lia.
  - apply IH.
  - apply IH.
Qed.

(** X20. A session code is 'ATT-', the decimal clock reading, a dash and at
    most eight characters of the random number.  Two start requests that
    both create a session give the two sessions the same code exactly when
    their clock readings are equal and their random characters are equal;
    in particular sessions created at different milliseconds get different
    codes. *)
Theorem session_codes_equal_iff :
  ∀ toDataURL sessions1 user1 class1 dateNow1 random1 start1 session1
    sessions2 user2 class2 dateNow2 random2 start2 session2,
    out_sessions (sessions_start toDataURL sessions1 user1 class1 dateNow1 random1 start1)
      = sessions1 ++ [session1] →
    out_sessions (sessions_start toDataURL sessions2 user2 class2 dateNow2 random2 start2)
      = sessions2 ++ [session2] →
    (∃ suffix, sessionCode session1 = "ATT-" +:+ pretty dateNow1 +:+ "-" +:+ suffix ∧
               (String.length suffix ≤ 8)%nat) ∧
    (sessionCode session1 = sessionCode session2 ↔
     dateNow1 = dateNow2 ∧
     String.substring 2 8 random1 = String.substring 2 8 random2) ∧
    (dateNow1 ≠ dateNow2 → sessionCode session1 ≠ sessionCode session2).
Proof.
  assert (∀ toDataURL sessions user cls dateNow rnd startNow session,
            out_sessions (sessions_start toDataURL sessions user cls dateNow rnd startNow)
              = sessions ++ [session] →
            sessionCode session = generateSessionCode dateNow rnd) as Hcode.
  { intros toDataURL sessions user cls dateNow rnd startNow session.
    unfold sessions_start.
    assert (sessions ≠ sessions ++ [session]) as Hne.
    { intros Heq. apply (f_equal length) in Heq.
      rewrite length_app in Heq. simpl in Heq. lia. }
    case_bool_decide; [done|].
    destruct (toDataURL _) as [err|qr]; [done|]. simpl.
    intros Heq%app_inv_head. by injection Heq as <-. }
  intros toDataURL sessions1 user1 class1 dateNow1 random1 start1 session1
    sessions2 user2 class2 dateNow2 random2 start2 session2 H1 H2.
  rewrite (Hcode _ _ _ _ _ _ _ _ H1), (Hcode _ _ _ _ _ _ _ _ H2).
  split_and!.
  - exists (String.substring 2 8 random1). split; [done|]. apply substring_length.
  - apply generateSessionCode_eq.
  - intros Hne Heq. apply generateSessionCode_eq in Heq as [? _]. done.
Qed.

Lemma session_codes_equal_iff_witness :
  let rs := [ReqStart dr_faculty None 1700000000000 "0.4fzyo82mvyr" 1700000000005;
             ReqStart dr_faculty (Some "DSA") 1700000004000 "0.4fzyo82mvyr" 1700000004001] in
  ∃ session1 session2,
    run sample_codec [] rs = [session1; session2] ∧
    sessionCode session1 ≠ sessionCode session2.
Proof.
  intros rs. eexists _, _. split; [reflexivity|].
  refine (proj2 (proj2 (session_codes_equal_iff sample_codec
            [] dr_faculty None 1700000000000 "0.4fzyo82mvyr" 1700000000005 _
            [_] dr_faculty (Some "DSA") 1700000004000 "0.4fzyo82mvyr" 1700000004001 _
            eq_refl eq_refl)) _).
  discriminate.
Defined.

(** ** Sessions and the answers that announced them *)

Lemma fmap_insert_same_key (sessions : list Session) (i : nat) (s s' : Session) :
  sessions !! i = Some s → session_key s' = session_key s →
  session_key <$> <[i := s']> sessions = session_key <$> sessions.
Proof.
  intros Hi Hkey. rewrite list_fmap_insert, Hkey.
  apply list_insert_id. by rewrite list_lookup_fmap, Hi.
Qed.

Lemma handle_keys toDataURL sessions r :
  session_key <$> out_sessions (handle toDataURL sessions r) =
  (session_key <$> sessions) ++
  match reply_session (out_response (handle toDataURL sessions r)) with
  | Some session => [session_key session]
  | None => []
  end.
Proof.
  destruct r as [user cls dateNow rnd startNow|code sid name now|user n now]; simpl.
  - unfold sessions_start. case_bool_decide; [by rewrite app_nil_r|].
    destruct (toDataURL _) as [err|qr]; simpl; [by rewrite app_nil_r|].
    by rewrite fmap_app.
  - destruct (mark_cases sessions code sid name now)
      as [(-> & _ & [-> | ->])|(i & s & Hfind & _ & ->)]; simpl;
      rewrite app_nil_r; [done..|].
    apply list_find_Some in Hfind as (Hi & _ & _).
    by apply (fmap_insert_same_key sessions i s).
  - unfold sessions_end.
    destruct (n ≫= _) as [[i s]|] eqn:Hfind; [|by rewrite app_nil_r].
    case_bool_decide; simpl; rewrite app_nil_r; [done|].
    destruct n as [n|]; [|done]. simpl in Hfind.
    apply list_find_Some in Hfind as (Hi & _ & _).
    by apply (fmap_insert_same_key sessions i s).
Qed.

(** X21. The registry holds exactly the sessions that were announced: from
    the empty registry, the ids, codes and professors of the sessions, in
    array order, are those of the sessions carried by the start answers, in
    the order the answers were sent; so there are as many sessions as
    successful start requests. *)
Theorem registry_lists_announced_sessions :
  ∀ toDataURL rs,
    session_key <$> run toDataURL [] rs =
      session_key <$> omap reply_session (responses toDataURL [] rs) ∧
    length (run toDataURL [] rs) =
      length (omap reply_session (responses toDataURL [] rs)).
Proof.
  intros toDataURL rs.
  assert (∀ sessions,
            session_key <$> run toDataURL sessions rs =
            (session_key <$> sessions) ++
            (session_key <$> omap reply_session (responses toDataURL sessions rs)))
    as Hrun.
  { induction rs as [|r rs IH]; intros sessions; simpl; [by rewrite app_nil_r|].
    rewrite IH, handle_keys, <- app_assoc. f_equal.
    by destruct (reply_session (out_response (handle toDataURL sessions r))). }
  pose proof (Hrun []) as Hkeys. simpl in Hkeys.
  split; [exact Hkeys|].
  apply (f_equal length) in Hkeys. by rewrite !length_fmap in Hkeys.
Qed.
